(** * The CapSense scan scheduler of [source/capsense.c]

    A shallow embedding of [capsense_task], [process_touch] and the two
    notification callbacks, followed by the properties of the scheduler:
    the busy guard, the deep-sleep lock discipline, the fast/slow cadence
    policy and the start-up assertions. *)

From Stdlib Require Import ZArith List Bool Lia String.
Import ListNotations.
Local Open Scope Z_scope.

(** ** Build configuration

    Everything [capsense.c] takes from headers that are not part of the
    repository (the CapSense middleware, the generated configuration, the
    PDL/HAL and FreeRTOS) is a field of this class, so that the model fixes
    none of their values.  [CAPSENSE_TUNER_ENABLE] is the preprocessor
    switch that selects the tuner build. *)
Class Build : Type := {
  CAPSENSE_TUNER_ENABLE : bool;
  CYRET_SUCCESS : Z;
  CY_RSLT_SUCCESS : Z;
  pdPASS : Z;
  CY_CAPSENSE_NOT_BUSY : Z;
  CY_CAPSENSE_LINEARSLIDER0_WDGT_ID : Z;
  CY_CAPSENSE_GANGEDSENSOR_WDGT_ID : Z;
  pdMS_TO_TICKS : Z -> Z;
  (* two [case] labels of one [switch] are distinct in a program that compiles *)
  widget_ids_distinct :
    CY_CAPSENSE_LINEARSLIDER0_WDGT_ID <> CY_CAPSENSE_GANGEDSENSOR_WDGT_ID
}.

(** ** Macros of [capsense.c] *)

Definition CAPSENSE_FAST_SCAN_INTERVAL_MS : Z := 20.
Definition CAPSENSE_SLOW_SCAN_INTERVAL_MS : Z := 200.
Definition MAX_CAPSENSE_FAST_SCAN_COUNT : Z := 100.
Definition RESET_CAPSENSE_FAST_SCAN_COUNT : Z := 1.

Definition INITIATE_SCAN : Z := 1.
Definition WAIT_IN_SLEEP : Z := 2.
Definition PROCESS_TOUCH : Z := 3.
Definition WAIT_IN_DEEP_SLEEP : Z := 4.
Definition UNUSED_STATE : Z := 5.

(** [uint32_t] arithmetic wraps. *)
Definition uint32 (n : Z) : Z := n mod 2 ^ 32.

(** ** Calls made to the collaborators

    One constructor per function of the middleware, the HAL, FreeRTOS and
    the C library that the file calls for its effect, with the arguments
    that matter.  Queries ([Cy_CapSense_IsBusy], [Cy_CapSense_GetTouchInfo],
    [Cy_CapSense_IsWidgetActive]) are answered by the environment below. *)
Inductive call : Type :=
| xTimerCreate (period_ticks : Z)
| xTimerStart
| xTimerChangePeriod (new_period : Z)
| xTaskNotifyWait
| cyhal_ezi2c_init
| cyhal_ezi2c_register_callback
| cyhal_ezi2c_enable_event
| cyhal_syspm_lock_deepsleep
| cyhal_syspm_unlock_deepsleep
| Cy_CapSense_Init
| Cy_SysInt_Init
| NVIC_ClearPendingIRQ
| NVIC_EnableIRQ
| Cy_CapSense_Enable
| Cy_SysPm_RegisterCallback
| Cy_CapSense_RegisterCallback
| Cy_CapSense_SetupWidget (widget_id : Z)
| Cy_CapSense_Scan
| Cy_CapSense_ScanAllWidgets
| Cy_CapSense_ProcessWidget (widget_id : Z)
| Cy_CapSense_ProcessAllWidgets
| Cy_CapSense_RunTuner
| printf (format : string) (args : list Z).

(** ** The two event sources

    [scan_timer_callback] and [capsense_callback] do nothing but post a
    value to the task's notification slot ([eSetValueWithOverwrite]). *)
Inductive event : Type := TimerExpired | ScanComplete.

Definition scan_timer_callback : Z :=
  let notify_state_change := INITIATE_SCAN in notify_state_change.

Definition capsense_callback : Z :=
  let notify_state_change := PROCESS_TOUCH in notify_state_change.

Definition notification_value (ev : event) : Z :=
  match ev with
  | TimerExpired => scan_timer_callback
  | ScanComplete => capsense_callback
  end.

(** ** What the environment answers during one pass of the loop

    A pass of [for (;;)] makes at most one call of each query, so one
    record per pass holds every answer the pass can ask for. *)
Record env : Type := {
  IsBusy : Z;              (* Cy_CapSense_IsBusy(&cy_capsense_context) *)
  notified : event;        (* the event whose value xTaskNotifyWait delivers *)
  numPosition : Z;         (* slider_touch_info->numPosition, a uint8_t *)
  ptrPosition_x : Z;       (* slider_touch_info->ptrPosition->x, a uint16_t *)
  IsWidgetActive : Z       (* Cy_CapSense_IsWidgetActive(GANGEDSENSOR, ...) *)
}.

(** ** Variables of the task

    The three [static] locals of [capsense_task], its local
    [slider_position], and the [static] local of [process_touch]. *)
Record task_vars : Type := {
  state : Z;
  is_fast_scan_enabled : bool;
  capsense_fast_scan_count : Z;
  slider_position : Z;
  slider_pos_prev : Z
}.

Definition set_state (n : Z) (v : task_vars) : task_vars :=
  {| state := n;
     is_fast_scan_enabled := is_fast_scan_enabled v;
     capsense_fast_scan_count := capsense_fast_scan_count v;
     slider_position := slider_position v;
     slider_pos_prev := slider_pos_prev v |}.

Definition set_is_fast_scan_enabled (b : bool) (v : task_vars) : task_vars :=
  {| state := state v;
     is_fast_scan_enabled := b;
     capsense_fast_scan_count := capsense_fast_scan_count v;
     slider_position := slider_position v;
     slider_pos_prev := slider_pos_prev v |}.

Definition set_capsense_fast_scan_count (n : Z) (v : task_vars) : task_vars :=
  {| state := state v;
     is_fast_scan_enabled := is_fast_scan_enabled v;
     capsense_fast_scan_count := n;
     slider_position := slider_position v;
     slider_pos_prev := slider_pos_prev v |}.

Definition set_slider_position (n : Z) (v : task_vars) : task_vars :=
  {| state := state v;
     is_fast_scan_enabled := is_fast_scan_enabled v;
     capsense_fast_scan_count := capsense_fast_scan_count v;
     slider_position := n;
     slider_pos_prev := slider_pos_prev v |}.

Definition set_slider_pos_prev (n : Z) (v : task_vars) : task_vars :=
  {| state := state v;
     is_fast_scan_enabled := is_fast_scan_enabled v;
     capsense_fast_scan_count := capsense_fast_scan_count v;
     slider_position := slider_position v;
     slider_pos_prev := n |}.

(** The initial values: the initialisers of the declarations, and zero for
    [slider_pos_prev], a [static] without initialiser. *)
Definition initial_vars : task_vars :=
  {| state := INITIATE_SCAN;
     is_fast_scan_enabled := true;
     capsense_fast_scan_count := RESET_CAPSENSE_FAST_SCAN_COUNT;
     slider_position := 0;
     slider_pos_prev := 0 |}.

(** ** A state-and-trace monad for the body of the task *)

Definition task (A : Type) : Type := task_vars -> A * task_vars * list call.

Definition ret {A : Type} (a : A) : task A := fun v => (a, v, []).

Definition bind {A B : Type} (m : task A) (k : A -> task B) : task B :=
  fun v =>
    let '(a, v1, c1) := m v in
    let '(b, v2, c2) := k a v1 in
    (b, v2, c1 ++ c2).

Definition emit (c : call) : task unit := fun v => (tt, v, [c]).
Definition read {A : Type} (f : task_vars -> A) : task A := fun v => (f v, v, []).
Definition write (f : task_vars -> task_vars) : task unit := fun v => (tt, f v, []).
Definition skip : task unit := ret tt.

Declare Scope task_scope.
Delimit Scope task_scope with task.
Notation "x <- m ;; k" := (bind m (fun x => k))
  (at level 61, m at next level, right associativity) : task_scope.
Notation "m ;; k" := (bind m (fun _ => k))
  (at level 61, right associativity) : task_scope.
Local Open Scope task_scope.

Definition vars_after {A : Type} (r : A * task_vars * list call) : task_vars :=
  snd (fst r).
Definition calls_of {A : Type} (r : A * task_vars * list call) : list call :=
  snd r.
Definition value_of {A : Type} (r : A * task_vars * list call) : A :=
  fst (fst r).

Section Scheduler.

Context {cfg : Build}.

(** ** [process_touch] *)
Definition process_touch (widget_id : Z) (e : env) : task bool :=
  (if CAPSENSE_TUNER_ENABLE
   then emit Cy_CapSense_ProcessAllWidgets
   else emit (Cy_CapSense_ProcessWidget widget_id)) ;;
  if widget_id =? CY_CAPSENSE_LINEARSLIDER0_WDGT_ID then
    let slider_touch_status := numPosition e in
    let slider_pos := ptrPosition_x e in
    prev <- read slider_pos_prev ;;
    let is_new_touch_detected :=
      negb (slider_touch_status =? 0) && negb (slider_pos =? prev) in
    (if is_new_touch_detected
     then write (set_slider_position slider_pos)
     else skip) ;;
    write (set_slider_pos_prev slider_pos) ;;
    ret is_new_touch_detected
  else if widget_id =? CY_CAPSENSE_GANGEDSENSOR_WDGT_ID then
    ret (negb (IsWidgetActive e =? 0))
  else
    ret false.

(** ** The [PROCESS_TOUCH] case of the switch *)
Definition process_touch_case (e : env) : task unit :=
  fast <- read is_fast_scan_enabled ;;
  (if fast then
     detected <- process_touch CY_CAPSENSE_LINEARSLIDER0_WDGT_ID e ;;
     if detected then
       write (set_capsense_fast_scan_count RESET_CAPSENSE_FAST_SCAN_COUNT) ;;
       pos <- read slider_position ;;
       emit (printf "Slider position = %ld\r\n" [pos])
     else
       count <- read capsense_fast_scan_count ;;
       if count <? MAX_CAPSENSE_FAST_SCAN_COUNT then
         write (set_capsense_fast_scan_count (uint32 (count + 1)))
       else
         write (set_is_fast_scan_enabled false) ;;
         emit (printf "Fast scan time-out, switching to slow scan.\r\n" []) ;;
         (if CAPSENSE_TUNER_ENABLE then skip
          else emit (Cy_CapSense_SetupWidget CY_CAPSENSE_GANGEDSENSOR_WDGT_ID)) ;;
         emit (xTimerChangePeriod CAPSENSE_SLOW_SCAN_INTERVAL_MS)
   else
     detected <- process_touch CY_CAPSENSE_GANGEDSENSOR_WDGT_ID e ;;
     if detected then
       write (set_is_fast_scan_enabled true) ;;
       emit (printf "Touch detected, switching to fast scan.\r\n" []) ;;
       (if CAPSENSE_TUNER_ENABLE then skip
        else emit (Cy_CapSense_SetupWidget CY_CAPSENSE_LINEARSLIDER0_WDGT_ID)) ;;
       write (set_capsense_fast_scan_count RESET_CAPSENSE_FAST_SCAN_COUNT) ;;
       emit (xTimerChangePeriod CAPSENSE_FAST_SCAN_INTERVAL_MS)
     else skip) ;;
  (if CAPSENSE_TUNER_ENABLE then emit Cy_CapSense_RunTuner else skip) ;;
  write (set_state WAIT_IN_DEEP_SLEEP).

(** [xTaskNotifyWait(0, 0, &state, portMAX_DELAY)]: the task blocks, and the
    value that was posted is stored in [state]. *)
Definition wait_for_notification (e : env) : task unit :=
  emit xTaskNotifyWait ;;
  write (set_state (notification_value (notified e))).

(** ** One pass of [for (;;) switch (state)] *)
Definition fsm_pass (e : env) : task unit :=
  st <- read state ;;
  if st =? INITIATE_SCAN then
    if CY_CAPSENSE_NOT_BUSY =? IsBusy e then
      (if CAPSENSE_TUNER_ENABLE
       then emit Cy_CapSense_ScanAllWidgets
       else emit Cy_CapSense_Scan) ;;
      write (set_state WAIT_IN_SLEEP)
    else skip
  else if st =? WAIT_IN_SLEEP then
    (if CAPSENSE_TUNER_ENABLE then skip else emit cyhal_syspm_lock_deepsleep) ;;
    wait_for_notification e
  else if st =? WAIT_IN_DEEP_SLEEP then
    (if CAPSENSE_TUNER_ENABLE then skip else emit cyhal_syspm_unlock_deepsleep) ;;
    wait_for_notification e
  else if st =? PROCESS_TOUCH then
    process_touch_case e
  else
    skip.

Definition next (e : env) (v : task_vars) : task_vars := vars_after (fsm_pass e v).
Definition emitted (e : env) (v : task_vars) : list call := calls_of (fsm_pass e v).

(** ** Finitely many passes of the loop, one environment record per pass *)
Fixpoint fsm_loop (es : list env) (v : task_vars) : task_vars * list call :=
  match es with
  | [] => (v, [])
  | e :: es' =>
      let '(v', c) := fsm_loop es' (next e v) in
      (v', emitted e v ++ c)
  end.

(** The passes of a run, each with the variables it started from. *)
Record pass : Type := { before : task_vars; input : env }.

Fixpoint passes (es : list env) (v : task_vars) : list pass :=
  match es with
  | [] => []
  | e :: es' => {| before := v; input := e |} :: passes es' (next e v)
  end.

(** ** Abbreviations used to state what a pass does *)

Definition process_call (widget_id : Z) : call :=
  if CAPSENSE_TUNER_ENABLE then Cy_CapSense_ProcessAllWidgets
  else Cy_CapSense_ProcessWidget widget_id.

Definition tuner_only (c : call) : list call :=
  if CAPSENSE_TUNER_ENABLE then [c] else [].

Definition restricted_only (c : call) : list call :=
  if CAPSENSE_TUNER_ENABLE then [] else [c].

Definition slider_new_touch (e : env) (v : task_vars) : bool :=
  negb (numPosition e =? 0) && negb (ptrPosition_x e =? slider_pos_prev v).

Definition after_slider (e : env) (v : task_vars) : task_vars :=
  set_slider_pos_prev (ptrPosition_x e)
    (if slider_new_touch e v then set_slider_position (ptrPosition_x e) v else v).

(** Whether the processing pass that starts from [v] detects a touch: on the
    slider in fast scan, on the ganged sensor in slow scan. *)
Definition detected (e : env) (v : task_vars) : bool :=
  value_of
    (process_touch
       (if is_fast_scan_enabled v
        then CY_CAPSENSE_LINEARSLIDER0_WDGT_ID
        else CY_CAPSENSE_GANGEDSENSOR_WDGT_ID) e v).

(** ** Counting and classifying the passes of a run *)

Definition count_in_range (v : task_vars) : Prop :=
  1 <= capsense_fast_scan_count v <= MAX_CAPSENSE_FAST_SCAN_COUNT.

Definition is_processing (p : pass) : bool := state (before p) =? PROCESS_TOUCH.

(** How many passes of the run were processing passes. *)
Definition processing_passes (es : list env) (v : task_vars) : Z :=
  Z.of_nat (List.length (filter is_processing (passes es v))).

(** No processing pass of the run detects a touch. *)
Definition no_touch_throughout (es : list env) (v : task_vars) : bool :=
  forallb (fun p => negb (is_processing p && detected (input p) (before p)))
    (passes es v).

(** Every wait of the run is woken by the event it waits for: the end of the
    scan in [WAIT_IN_SLEEP], the timer in [WAIT_IN_DEEP_SLEEP]. *)
Definition woken_as_expected (p : pass) : bool :=
  if state (before p) =? WAIT_IN_SLEEP then
    match notified (input p) with ScanComplete => true | TimerExpired => false end
  else if state (before p) =? WAIT_IN_DEEP_SLEEP then
    match notified (input p) with TimerExpired => true | ScanComplete => false end
  else true.

Definition well_routed (es : list env) (v : task_vars) : bool :=
  forallb woken_as_expected (passes es v).

(** The run has no processing pass. *)
Definition no_processing_yet (es : list env) (v : task_vars) : bool :=
  forallb (fun p => negb (is_processing p)) (passes es v).

(** Whether the next lock call that the task can make from [v] is a lock:
    so it is until the task has waited in [WAIT_IN_SLEEP]. *)
Definition lock_expected (v : task_vars) : bool :=
  negb ((state v =? PROCESS_TOUCH) || (state v =? WAIT_IN_DEEP_SLEEP)).

(** ** Start-up: the code of [capsense_task] before the loop *)

(** What the calls of the start-up code return. *)
Record boot : Type := {
  cyhal_ezi2c_init_result : Z;
  Cy_CapSense_Init_status : Z;
  Cy_CapSense_Enable_status : Z;
  Cy_CapSense_RegisterCallback_status : Z;
  xTimerStart_result : Z
}.

(** Straight-line code that may stop at an assertion: the calls made so
    far, and whether control goes on. *)
Definition phase : Type := (list call * bool)%type.

Definition proceed (c : list call) : phase := (c, true).

Definition and_then (p q : phase) : phase :=
  if snd p then (fst p ++ fst q, snd q) else p.

Notation "p >> q" := (and_then p q) (at level 62, left associativity).

(** Modelled from the spec: the macro [CY_ASSERT] comes from the PDL, which
    is not part of the repository.  The spec calls the failures it guards
    fatal (the process halts), and the comment at its first use in
    [capsense_task] reads "Halt the CPU if CapSense initialization failed":
    a failed assertion stops the task there. *)
Definition CY_ASSERT (x : bool) : phase := ([], x).

Definition initialize_capsense_tuner (b : boot) : phase :=
  proceed [cyhal_ezi2c_init] >>
  (if negb (cyhal_ezi2c_init_result b =? CY_RSLT_SUCCESS)
   then CY_ASSERT false else proceed []) >>
  proceed [cyhal_ezi2c_register_callback; cyhal_ezi2c_enable_event].

Definition initialize_capsense (b : boot) : Z * list call :=
  let status := Cy_CapSense_Init_status b in
  if negb (CYRET_SUCCESS =? status) then (status, [Cy_CapSense_Init]) else
  let status := Cy_CapSense_Enable_status b in
  if negb (CYRET_SUCCESS =? status) then
    (status, [Cy_CapSense_Init; Cy_SysInt_Init; NVIC_ClearPendingIRQ;
              NVIC_EnableIRQ; Cy_CapSense_Enable])
  else
  let status := Cy_CapSense_RegisterCallback_status b in
  (status, [Cy_CapSense_Init; Cy_SysInt_Init; NVIC_ClearPendingIRQ;
            NVIC_EnableIRQ; Cy_CapSense_Enable; Cy_SysPm_RegisterCallback;
            Cy_CapSense_RegisterCallback]).

Definition capsense_task_startup (b : boot) : phase :=
  proceed [xTimerCreate (pdMS_TO_TICKS CAPSENSE_FAST_SCAN_INTERVAL_MS)] >>
  (if CAPSENSE_TUNER_ENABLE
   then initialize_capsense_tuner b >> proceed [cyhal_syspm_lock_deepsleep]
   else proceed []) >>
  (let '(status, c) := initialize_capsense b in
   proceed c >>
   (if negb (CYRET_SUCCESS =? status) then CY_ASSERT false else proceed [])) >>
  (if CAPSENSE_TUNER_ENABLE then proceed []
   else proceed [Cy_CapSense_SetupWidget CY_CAPSENSE_LINEARSLIDER0_WDGT_ID]) >>
  proceed [xTimerStart] >>
  (if negb (pdPASS =? xTimerStart_result b) then CY_ASSERT false else proceed []).

(** ** [capsense_task], observed for as many passes of its loop as there are
    environment records: the calls it made, and its variables if it reached
    the loop ([None] when an assertion stopped it before). *)
Definition capsense_task (b : boot) (es : list env) : list call * option task_vars :=
  let '(c0, running) := capsense_task_startup b in
  if running then
    let '(v, c) := fsm_loop es initial_vars in (c0 ++ c, Some v)
  else (c0, None).

End Scheduler.

(** ** What the collaborators see of a trace *)

(** Deep-sleep locks taken and not yet released. *)
Fixpoint outstanding_locks (t : list call) : Z :=
  match t with
  | [] => 0
  | cyhal_syspm_lock_deepsleep :: t' => 1 + outstanding_locks t'
  | cyhal_syspm_unlock_deepsleep :: t' => outstanding_locks t' - 1
  | _ :: t' => outstanding_locks t'
  end.

Definition is_lock_call (c : call) : bool :=
  match c with
  | cyhal_syspm_lock_deepsleep | cyhal_syspm_unlock_deepsleep => true
  | _ => false
  end.

(** The lock and unlock calls of a trace, in order. *)
Definition lock_calls (t : list call) : list call := filter is_lock_call t.

(** [alternates true l]: [l] reads lock, unlock, lock, unlock, ... *)
Fixpoint alternates (lock_next : bool) (l : list call) : bool :=
  match l with
  | [] => true
  | cyhal_syspm_lock_deepsleep :: l' => lock_next && alternates false l'
  | cyhal_syspm_unlock_deepsleep :: l' => negb lock_next && alternates true l'
  | _ :: _ => false
  end.

Definition is_start_scan (c : call) : bool :=
  match c with
  | Cy_CapSense_Scan | Cy_CapSense_ScanAllWidgets => true
  | _ => false
  end.

(** The slider positions that the trace prints. *)
Definition reported_position (c : call) : option Z :=
  match c with
  | printf format [pos] =>
      if (format =? "Slider position = %ld\r\n")%string then Some pos else None
  | _ => None
  end.

Fixpoint reported_positions (t : list call) : list Z :=
  match t with
  | [] => []
  | c :: t' =>
      match reported_position c with
      | Some pos => pos :: reported_positions t'
      | None => reported_positions t'
      end
  end.

(** How many times the trace asks the timer for a new period. *)
Fixpoint reprogrammings (t : list call) : Z :=
  match t with
  | [] => 0
  | xTimerChangePeriod _ :: t' => 1 + reprogrammings t'
  | _ :: t' => reprogrammings t'
  end.

(** The widget most recently set up for scanning, if the trace has one. *)
Fixpoint armed_widget (t : list call) : option Z :=
  match t with
  | [] => None
  | c :: t' =>
      match armed_widget t', c with
      | Some w, _ => Some w
      | None, Cy_CapSense_SetupWidget w => Some w
      | None, _ => None
      end
  end.

(** The period most recently requested from the timer, if the trace has one. *)
Fixpoint timer_period (t : list call) : option Z :=
  match t with
  | [] => None
  | c :: t' =>
      match timer_period t', c with
      | Some p, _ => Some p
      | None, xTimerCreate p => Some p
      | None, xTimerChangePeriod p => Some p
      | None, _ => None
      end
  end.

(** A trace without calls that change the cadence. *)
Definition cadence_silent (t : list call) : Prop :=
  timer_period t = None /\ armed_widget t = None /\ reprogrammings t = 0.

(** A build for the examples: tuner disabled, the values the vendor headers
    give the status codes, widget identifiers 0 and 1, one tick per
    millisecond. *)
#[refine] Instance example_build : Build := {|
  CAPSENSE_TUNER_ENABLE := false;
  CYRET_SUCCESS := 0;
  CY_RSLT_SUCCESS := 0;
  pdPASS := 1;
  CY_CAPSENSE_NOT_BUSY := 0;
  CY_CAPSENSE_LINEARSLIDER0_WDGT_ID := 0;
  CY_CAPSENSE_GANGEDSENSOR_WDGT_ID := 1;
  pdMS_TO_TICKS := fun xTimeInMs => xTimeInMs
|}.
Proof. discriminate. Defined.

(** Inputs for the examples. *)

Definition example_boot : boot :=
  {| cyhal_ezi2c_init_result := 0;
     Cy_CapSense_Init_status := 0;
     Cy_CapSense_Enable_status := 0;
     Cy_CapSense_RegisterCallback_status := 0;
     xTimerStart_result := 1 |}.

(** Everything succeeds but [xTimerStart], which returns [pdFAIL] = 0. *)
Definition failed_timer_boot : boot :=
  {| cyhal_ezi2c_init_result := 0;
     Cy_CapSense_Init_status := 0;
     Cy_CapSense_Enable_status := 0;
     Cy_CapSense_RegisterCallback_status := 0;
     xTimerStart_result := 0 |}.

Definition answers (busy : Z) (ev : event) (count pos active : Z) : env :=
  {| IsBusy := busy; notified := ev; numPosition := count;
     ptrPosition_x := pos; IsWidgetActive := active |}.

(** The four passes of one scan cycle from [INITIATE_SCAN]: the hardware is
    idle, the scan completes, the result is processed, the timer expires. *)
Definition scan_cycle (count pos active : Z) : list env :=
  [answers 0 ScanComplete count pos active;
   answers 0 ScanComplete count pos active;
   answers 0 ScanComplete count pos active;
   answers 0 TimerExpired count pos active].

(** [n] scan cycles in which nothing is touched. *)
Definition quiet_cycles (n : nat) : list env :=
  List.concat (repeat (scan_cycle 0 0 0) n).

(** 99 quiet cycles, then the first two passes of the next one: the task is
    about to process its 100th scan. *)
Definition before_hundredth_miss : list env :=
  quiet_cycles 99 ++ [answers 0 ScanComplete 0 0 0; answers 0 ScanComplete 0 0 0].

(** A scan is started; the timer expires before the scan completes; the
    task finds the hardware busy once, then idle, starts a second scan and
    waits again. *)
Definition timer_overtakes_scan : list env :=
  [answers 0 ScanComplete 0 0 0;
   answers 1 TimerExpired 0 0 0;
   answers 1 TimerExpired 0 0 0;
   answers 0 ScanComplete 0 0 0;
   answers 0 ScanComplete 0 0 0].

Definition waiting_for_scan : task_vars := set_state WAIT_IN_SLEEP initial_vars.

Definition processing_in_slow_scan : task_vars :=
  set_is_fast_scan_enabled false
    (set_capsense_fast_scan_count MAX_CAPSENSE_FAST_SCAN_COUNT
       (set_state PROCESS_TOUCH initial_vars)).

(** ** Further observations of a trace and of the variables *)

Definition is_process_call (c : call) : bool :=
  match c with
  | Cy_CapSense_ProcessWidget _ | Cy_CapSense_ProcessAllWidgets => true
  | _ => false
  end.

Definition is_run_tuner (c : call) : bool :=
  match c with
  | Cy_CapSense_RunTuner => true
  | _ => false
  end.

(** How many calls of the trace satisfy [f]. *)
Definition calls_such_that (f : call -> bool) (t : list call) : Z :=
  Z.of_nat (List.length (filter f t)).

(** 1 when a scan has been started whose result is not processed yet, as
    far as the state of the task tells. *)
Definition scan_in_flight (v : task_vars) : Z :=
  if (state v =? WAIT_IN_SLEEP) || (state v =? PROCESS_TOUCH) then 1 else 0.

(** The state is one of the four that the switch handles. *)
Definition state_is_handled (v : task_vars) : bool :=
  (state v =? INITIATE_SCAN) || (state v =? WAIT_IN_SLEEP)
  || (state v =? PROCESS_TOUCH) || (state v =? WAIT_IN_DEEP_SLEEP).

Section Observations.

Context {cfg : Build}.

(** The hardware is busy in every pass. *)
Definition all_busy (es : list env) : bool :=
  forallb (fun e => negb (CY_CAPSENSE_NOT_BUSY =? IsBusy e)) es.

(** The call that starts a scan in this build. *)
Definition scan_call : call :=
  if CAPSENSE_TUNER_ENABLE then Cy_CapSense_ScanAllWidgets else Cy_CapSense_Scan.

(** The widget processed in fast scan, and the one processed in slow scan. *)
Definition widget_for_mode (fast : bool) : Z :=
  if fast then CY_CAPSENSE_LINEARSLIDER0_WDGT_ID
  else CY_CAPSENSE_GANGEDSENSOR_WDGT_ID.

(** The period that the task asks the timer for when it changes to a mode. *)
Definition interval_for_mode (fast : bool) : Z :=
  if fast then CAPSENSE_FAST_SCAN_INTERVAL_MS else CAPSENSE_SLOW_SCAN_INTERVAL_MS.

(** The calls of a start-up in which everything succeeds. *)
Definition successful_startup_calls : list call :=
  [xTimerCreate (pdMS_TO_TICKS CAPSENSE_FAST_SCAN_INTERVAL_MS)]
    ++ (if CAPSENSE_TUNER_ENABLE
        then [cyhal_ezi2c_init; cyhal_ezi2c_register_callback;
              cyhal_ezi2c_enable_event; cyhal_syspm_lock_deepsleep]
        else [])
    ++ [Cy_CapSense_Init; Cy_SysInt_Init; NVIC_ClearPendingIRQ; NVIC_EnableIRQ;
        Cy_CapSense_Enable; Cy_SysPm_RegisterCallback; Cy_CapSense_RegisterCallback]
    ++ (if CAPSENSE_TUNER_ENABLE then []
        else [Cy_CapSense_SetupWidget CY_CAPSENSE_LINEARSLIDER0_WDGT_ID])
    ++ [xTimerStart].

End Observations.

(** The build of [example_build] with the tuner enabled. *)
Definition tuner_build : Build :=
  {| CAPSENSE_TUNER_ENABLE := true;
     CYRET_SUCCESS := 0;
     CY_RSLT_SUCCESS := 0;
     pdPASS := 1;
     CY_CAPSENSE_NOT_BUSY := 0;
     CY_CAPSENSE_LINEARSLIDER0_WDGT_ID := 0;
     CY_CAPSENSE_GANGEDSENSOR_WDGT_ID := 1;
     pdMS_TO_TICKS := fun xTimeInMs => xTimeInMs;
     widget_ids_distinct := widget_ids_distinct (Build := example_build) |}.

(** [Cy_CapSense_Enable] fails with status 2. *)
Definition failed_enable_boot : boot :=
  {| cyhal_ezi2c_init_result := 0;
     Cy_CapSense_Init_status := 0;
     Cy_CapSense_Enable_status := 2;
     Cy_CapSense_RegisterCallback_status := 0;
     xTimerStart_result := 1 |}.

(** The tuner's EZI2C block fails to initialise. *)
Definition failed_tuner_boot : boot :=
  {| cyhal_ezi2c_init_result := 7;
     Cy_CapSense_Init_status := 0;
     Cy_CapSense_Enable_status := 0;
     Cy_CapSense_RegisterCallback_status := 0;
     xTimerStart_result := 1 |}.

(** Calls that only the restricted build makes, and calls that only the
    tuner build makes. *)
Definition is_restricted_call (c : call) : bool :=
  match c with
  | Cy_CapSense_Scan | Cy_CapSense_ProcessWidget _ | Cy_CapSense_SetupWidget _
  | cyhal_syspm_unlock_deepsleep => true
  | _ => false
  end.

Definition is_tuner_call (c : call) : bool :=
  match c with
  | Cy_CapSense_ScanAllWidgets | Cy_CapSense_ProcessAllWidgets
  | Cy_CapSense_RunTuner | cyhal_ezi2c_init | cyhal_ezi2c_register_callback
  | cyhal_ezi2c_enable_event => true
  | _ => false
  end.

(** Three passes with the hardware busy. *)
Definition busy_three_times : list env :=
  [answers 1 TimerExpired 0 0 0; answers 2 TimerExpired 0 0 0;
   answers 1 ScanComplete 0 0 0].

(** The position that the most recent slider processing pass of a run
    reported, [d] if the run has none: a pass processes the slider when it
    is in [PROCESS_TOUCH] with fast scan enabled. *)
Fixpoint last_slider_report (ps : list pass) (d : Z) : Z :=
  match ps with
  | [] => d
  | p :: ps' =>
      last_slider_report ps'
        (if is_processing p && is_fast_scan_enabled (before p)
         then ptrPosition_x (input p) else d)
  end.

Definition is_timer_setup (c : call) : bool :=
  match c with
  | xTimerCreate _ | xTimerStart => true
  | _ => false
  end.


(** The timer expires, then 100 scan cycles in which nothing is touched. *)
Definition hundred_quiet_cycles_after_wake : list env :=
  answers 0 TimerExpired 0 0 0 :: quiet_cycles 100.

(** * Properties *)

Section Properties.

Context {cfg : Build}.

(** ** The loop body, case by case *)

Ltac unfold_task :=
  unfold next, emitted, vars_after, calls_of, value_of, fsm_pass,
    process_touch_case, process_touch, wait_for_notification,
    bind, read, write, emit, skip, ret.

Ltac states :=
  unfold INITIATE_SCAN, WAIT_IN_SLEEP, PROCESS_TOUCH, WAIT_IN_DEEP_SLEEP in *.

Lemma pass_initiate_scan_idle (e : env) (v : task_vars) :
  state v = INITIATE_SCAN ->
  IsBusy e = CY_CAPSENSE_NOT_BUSY ->
  fsm_pass e v =
    (tt, set_state WAIT_IN_SLEEP v,
     [if CAPSENSE_TUNER_ENABLE then Cy_CapSense_ScanAllWidgets else Cy_CapSense_Scan]).
Proof.
  intros Hs Hb. unfold_task. rewrite Hs, Hb, !Z.eqb_refl. cbn.
  destruct CAPSENSE_TUNER_ENABLE; reflexivity.
Qed.

Lemma pass_initiate_scan_busy (e : env) (v : task_vars) :
  state v = INITIATE_SCAN ->
  IsBusy e <> CY_CAPSENSE_NOT_BUSY ->
  fsm_pass e v = (tt, v, []).
Proof.
  intros Hs Hb. unfold_task. rewrite Hs.
  apply Z.eqb_neq in Hb.
  rewrite (Z.eqb_sym CY_CAPSENSE_NOT_BUSY (IsBusy e)), Hb. reflexivity.
Qed.

Lemma pass_wait_in_sleep (e : env) (v : task_vars) :
  state v = WAIT_IN_SLEEP ->
  fsm_pass e v =
    (tt, set_state (notification_value (notified e)) v,
     (if CAPSENSE_TUNER_ENABLE then [] else [cyhal_syspm_lock_deepsleep])
       ++ [xTaskNotifyWait]).
Proof.
  intros Hs. unfold_task. rewrite Hs. states. cbn.
  destruct CAPSENSE_TUNER_ENABLE; reflexivity.
Qed.

Lemma pass_wait_in_deep_sleep (e : env) (v : task_vars) :
  state v = WAIT_IN_DEEP_SLEEP ->
  fsm_pass e v =
    (tt, set_state (notification_value (notified e)) v,
     (if CAPSENSE_TUNER_ENABLE then [] else [cyhal_syspm_unlock_deepsleep])
       ++ [xTaskNotifyWait]).
Proof.
  intros Hs. unfold_task. rewrite Hs. states. cbn.
  destruct CAPSENSE_TUNER_ENABLE; reflexivity.
Qed.

Lemma pass_process_touch (e : env) (v : task_vars) :
  state v = PROCESS_TOUCH ->
  fsm_pass e v = process_touch_case e v.
Proof.
  intros Hs. unfold fsm_pass, bind, read. rewrite Hs.
  change (PROCESS_TOUCH =? INITIATE_SCAN) with false.
  change (PROCESS_TOUCH =? WAIT_IN_SLEEP) with false.
  change (PROCESS_TOUCH =? WAIT_IN_DEEP_SLEEP) with false.
  change (PROCESS_TOUCH =? PROCESS_TOUCH) with true.
  cbv beta iota.
  destruct (process_touch_case e v) as [[[] v'] c]. reflexivity.
Qed.

Lemma pass_default (e : env) (v : task_vars) :
  state v <> INITIATE_SCAN -> state v <> WAIT_IN_SLEEP ->
  state v <> WAIT_IN_DEEP_SLEEP -> state v <> PROCESS_TOUCH ->
  fsm_pass e v = (tt, v, []).
Proof.
  intros H1 H2 H3 H4. unfold_task.
  apply Z.eqb_neq in H1, H2, H3, H4. now rewrite H1, H2, H3, H4.
Qed.

(** ** [process_touch] and the [PROCESS_TOUCH] case in closed form *)

Lemma process_touch_slider (e : env) (v : task_vars) :
  process_touch CY_CAPSENSE_LINEARSLIDER0_WDGT_ID e v =
    (slider_new_touch e v, after_slider e v,
     [process_call CY_CAPSENSE_LINEARSLIDER0_WDGT_ID]).
Proof.
  unfold process_touch, process_call, after_slider, slider_new_touch,
    bind, read, write, emit, skip, ret.
  rewrite Z.eqb_refl.
  destruct CAPSENSE_TUNER_ENABLE;
    destruct (negb (numPosition e =? 0) && negb (ptrPosition_x e =? slider_pos_prev v));
    reflexivity.
Qed.

Lemma process_touch_ganged (e : env) (v : task_vars) :
  process_touch CY_CAPSENSE_GANGEDSENSOR_WDGT_ID e v =
    (negb (IsWidgetActive e =? 0), v,
     [process_call CY_CAPSENSE_GANGEDSENSOR_WDGT_ID]).
Proof.
  unfold process_touch, process_call, bind, read, write, emit, skip, ret.
  assert (Hd : (CY_CAPSENSE_GANGEDSENSOR_WDGT_ID =? CY_CAPSENSE_LINEARSLIDER0_WDGT_ID) = false).
  { apply Z.eqb_neq. intro H. apply widget_ids_distinct. now symmetry. }
  rewrite Hd, Z.eqb_refl.
  destruct CAPSENSE_TUNER_ENABLE; reflexivity.
Qed.

Lemma process_touch_case_fast (e : env) (v : task_vars) :
  is_fast_scan_enabled v = true ->
  process_touch_case e v =
    if slider_new_touch e v then
      (tt,
       set_state WAIT_IN_DEEP_SLEEP
         (set_capsense_fast_scan_count RESET_CAPSENSE_FAST_SCAN_COUNT (after_slider e v)),
       [process_call CY_CAPSENSE_LINEARSLIDER0_WDGT_ID;
        printf "Slider position = %ld\r\n" [ptrPosition_x e]]
         ++ tuner_only Cy_CapSense_RunTuner)
    else if capsense_fast_scan_count v <? MAX_CAPSENSE_FAST_SCAN_COUNT then
      (tt,
       set_state WAIT_IN_DEEP_SLEEP
         (set_capsense_fast_scan_count (uint32 (capsense_fast_scan_count v + 1))
            (after_slider e v)),
       [process_call CY_CAPSENSE_LINEARSLIDER0_WDGT_ID]
         ++ tuner_only Cy_CapSense_RunTuner)
    else
      (tt,
       set_state WAIT_IN_DEEP_SLEEP (set_is_fast_scan_enabled false (after_slider e v)),
       [process_call CY_CAPSENSE_LINEARSLIDER0_WDGT_ID;
        printf "Fast scan time-out, switching to slow scan.\r\n" []]
         ++ restricted_only (Cy_CapSense_SetupWidget CY_CAPSENSE_GANGEDSENSOR_WDGT_ID)
         ++ [xTimerChangePeriod CAPSENSE_SLOW_SCAN_INTERVAL_MS]
         ++ tuner_only Cy_CapSense_RunTuner).
Proof.
  intros Hf. unfold process_touch_case.
  unfold bind at 1. unfold read at 1. rewrite Hf.
  unfold bind at 1. unfold bind at 1. rewrite process_touch_slider.
  unfold after_slider, tuner_only, restricted_only.
  destruct (slider_new_touch e v).
  - unfold bind, read, write, emit, skip, ret.
    destruct CAPSENSE_TUNER_ENABLE; reflexivity.
  - unfold bind at 1. unfold read at 1. cbn [capsense_fast_scan_count set_slider_pos_prev].
    destruct (capsense_fast_scan_count v <? MAX_CAPSENSE_FAST_SCAN_COUNT);
      unfold bind, read, write, emit, skip, ret;
      destruct CAPSENSE_TUNER_ENABLE; reflexivity.
Qed.

Lemma process_touch_case_slow (e : env) (v : task_vars) :
  is_fast_scan_enabled v = false ->
  process_touch_case e v =
    if negb (IsWidgetActive e =? 0) then
      (tt,
       set_state WAIT_IN_DEEP_SLEEP
         (set_capsense_fast_scan_count RESET_CAPSENSE_FAST_SCAN_COUNT
            (set_is_fast_scan_enabled true v)),
       [process_call CY_CAPSENSE_GANGEDSENSOR_WDGT_ID;
        printf "Touch detected, switching to fast scan.\r\n" []]
         ++ restricted_only (Cy_CapSense_SetupWidget CY_CAPSENSE_LINEARSLIDER0_WDGT_ID)
         ++ [xTimerChangePeriod CAPSENSE_FAST_SCAN_INTERVAL_MS]
         ++ tuner_only Cy_CapSense_RunTuner)
    else
      (tt, set_state WAIT_IN_DEEP_SLEEP v,
       [process_call CY_CAPSENSE_GANGEDSENSOR_WDGT_ID]
         ++ tuner_only Cy_CapSense_RunTuner).
Proof.
  intros Hf. unfold process_touch_case.
  unfold bind at 1. unfold read at 1. rewrite Hf.
  unfold bind at 1. unfold bind at 1. rewrite process_touch_ganged.
  unfold tuner_only, restricted_only.
  destruct (negb (IsWidgetActive e =? 0));
    unfold bind, read, write, emit, skip, ret;
    destruct CAPSENSE_TUNER_ENABLE; reflexivity.
Qed.

Lemma state_cases (v : task_vars) :
  state v = INITIATE_SCAN \/ state v = WAIT_IN_SLEEP \/
  state v = WAIT_IN_DEEP_SLEEP \/ state v = PROCESS_TOUCH \/
  (state v <> INITIATE_SCAN /\ state v <> WAIT_IN_SLEEP /\
   state v <> WAIT_IN_DEEP_SLEEP /\ state v <> PROCESS_TOUCH).
Proof. lia. Qed.

(** The calls of a processing pass, whatever it finds, start no scan. *)
Lemma process_touch_case_no_scan (e : env) (v : task_vars) :
  existsb is_start_scan (calls_of (process_touch_case e v)) = false.
Proof.
  destruct (is_fast_scan_enabled v) eqn:Hf.
  - rewrite (process_touch_case_fast e v Hf).
    unfold process_call, tuner_only, restricted_only.
    destruct (slider_new_touch e v);
      [| destruct (capsense_fast_scan_count v <? MAX_CAPSENSE_FAST_SCAN_COUNT)];
      destruct CAPSENSE_TUNER_ENABLE; reflexivity.
  - rewrite (process_touch_case_slow e v Hf).
    unfold process_call, tuner_only, restricted_only.
    destruct (negb (IsWidgetActive e =? 0));
      destruct CAPSENSE_TUNER_ENABLE; reflexivity.
Qed.

Lemma busy_pass (e : env) (v : task_vars) :
  IsBusy e <> CY_CAPSENSE_NOT_BUSY ->
  existsb is_start_scan (emitted e v) = false /\
  (state v = INITIATE_SCAN -> next e v = v /\ emitted e v = []).
Proof.
  intros Hb. unfold next, emitted.
  destruct (state_cases v) as [H | [H | [H | [H | (H1 & H2 & H3 & H4)]]]].
  - rewrite (pass_initiate_scan_busy e v H Hb). repeat split.
  - rewrite (pass_wait_in_sleep e v H). split.
    + destruct CAPSENSE_TUNER_ENABLE; reflexivity.
    + intros H'. rewrite H in H'. discriminate.
  - rewrite (pass_wait_in_deep_sleep e v H). split.
    + destruct CAPSENSE_TUNER_ENABLE; reflexivity.
    + intros H'. rewrite H in H'. discriminate.
  - rewrite (pass_process_touch e v H). split.
    + apply process_touch_case_no_scan.
    + intros H'. rewrite H in H'. discriminate.
  - rewrite (pass_default e v H1 H2 H3 H4). repeat split.
Qed.

(** ** The busy guard *)

(** C1. Whatever the variables of the task and whatever events and answers
    the passes of the loop receive, a pass in which [Cy_CapSense_IsBusy]
    does not answer [CY_CAPSENSE_NOT_BUSY] calls neither [Cy_CapSense_Scan]
    nor [Cy_CapSense_ScanAllWidgets]; if that pass is in [INITIATE_SCAN],
    it changes no variable (the state stays [INITIATE_SCAN]) and makes no
    call at all. *)
Theorem no_scan_while_busy (es : list env) (v : task_vars) :
  Forall
    (fun p =>
       IsBusy (input p) <> CY_CAPSENSE_NOT_BUSY ->
       existsb is_start_scan (emitted (input p) (before p)) = false /\
       (state (before p) = INITIATE_SCAN ->
        state (next (input p) (before p)) = INITIATE_SCAN /\
        next (input p) (before p) = before p /\
        emitted (input p) (before p) = []))
    (passes es v).
Proof.
  revert v. induction es as [| e es IH]; intros v; cbn [passes].
  - constructor.
  - constructor; [| apply IH].
    cbn [input before]. intros Hb.
    destruct (busy_pass e v Hb) as [Hno Hstay]. split; [exact Hno |].
    intros Hs. destruct (Hstay Hs) as [Hv Hc].
    rewrite Hv. auto.
Qed.

(** ** Touch detection on the slider *)

(** C6. On the linear slider, [process_touch] returns true exactly when the
    reported number of positions is not zero and the reported position is
    not [slider_pos_prev]; and in either case [slider_pos_prev] is the
    reported position afterwards. *)
Theorem process_touch_new_touch_iff (e : env) (v : task_vars) :
  let r := process_touch CY_CAPSENSE_LINEARSLIDER0_WDGT_ID e v in
  (value_of r = true <->
   numPosition e <> 0 /\ ptrPosition_x e <> slider_pos_prev v) /\
  slider_pos_prev (vars_after r) = ptrPosition_x e.
Proof.
  cbv zeta. rewrite process_touch_slider.
  unfold value_of, vars_after, slider_new_touch. cbn [fst snd].
  split.
  - rewrite andb_true_iff, !negb_true_iff, !Z.eqb_neq. reflexivity.
  - reflexivity.
Qed.

(** ** A notification of the other kind *)

(** C3, as amended. A pass in [WAIT_IN_SLEEP] that is woken by the timer's
    notification stores the notified value in [state]: the state becomes
    [INITIATE_SCAN], and the switch of the next pass branches on it.  No
    other variable of the task changes, and the pass makes no call besides
    the lock (restricted build) and the wait itself. *)
Theorem stray_timer_sets_initiate_scan (e : env) (v : task_vars) :
  state v = WAIT_IN_SLEEP ->
  notified e = TimerExpired ->
  state (next e v) = INITIATE_SCAN /\
  next e v = set_state INITIATE_SCAN v /\
  emitted e v = restricted_only cyhal_syspm_lock_deepsleep ++ [xTaskNotifyWait].
Proof.
  intros Hs Hn. unfold next, emitted.
  rewrite (pass_wait_in_sleep e v Hs), Hn.
  unfold restricted_only. repeat split.
Qed.

(** ** Cadence: the slow scan *)

(** C5. A processing pass in slow scan in which the ganged sensor is
    reported active sets, in that very pass, [is_fast_scan_enabled] to
    true and [capsense_fast_scan_count] to [RESET_CAPSENSE_FAST_SCAN_COUNT],
    asks the timer for [CAPSENSE_FAST_SCAN_INTERVAL_MS], and (restricted
    build) sets up the linear slider for the next scan; the state becomes
    [WAIT_IN_DEEP_SLEEP]. *)
Theorem slow_scan_touch_escalates (e : env) (v : task_vars) :
  state v = PROCESS_TOUCH ->
  is_fast_scan_enabled v = false ->
  IsWidgetActive e <> 0 ->
  is_fast_scan_enabled (next e v) = true /\
  capsense_fast_scan_count (next e v) = RESET_CAPSENSE_FAST_SCAN_COUNT /\
  state (next e v) = WAIT_IN_DEEP_SLEEP /\
  timer_period (emitted e v) = Some CAPSENSE_FAST_SCAN_INTERVAL_MS /\
  armed_widget (emitted e v) =
    (if CAPSENSE_TUNER_ENABLE then None else Some CY_CAPSENSE_LINEARSLIDER0_WDGT_ID) /\
  emitted e v =
    [process_call CY_CAPSENSE_GANGEDSENSOR_WDGT_ID;
     printf "Touch detected, switching to fast scan.\r\n" []]
      ++ restricted_only (Cy_CapSense_SetupWidget CY_CAPSENSE_LINEARSLIDER0_WDGT_ID)
      ++ [xTimerChangePeriod CAPSENSE_FAST_SCAN_INTERVAL_MS]
      ++ tuner_only Cy_CapSense_RunTuner.
Proof.
  intros Hs Hf Ha. unfold next, emitted.
  rewrite (pass_process_touch e v Hs), (process_touch_case_slow e v Hf).
  apply Z.eqb_neq in Ha. rewrite Ha. cbn [negb].
  unfold vars_after, calls_of, process_call, tuner_only, restricted_only.
  cbn [fst snd].
  destruct CAPSENSE_TUNER_ENABLE; repeat split.
Qed.

(** C8. A processing pass in slow scan in which the ganged sensor is not
    reported active changes nothing but the state, which becomes
    [WAIT_IN_DEEP_SLEEP]: the scan stays slow, the counter keeps its value,
    no widget is set up (the ganged sensor stays the one set up) and the
    timer is asked for no new period. *)
Theorem slow_scan_no_touch_frame (e : env) (v : task_vars) :
  state v = PROCESS_TOUCH ->
  is_fast_scan_enabled v = false ->
  IsWidgetActive e = 0 ->
  next e v = set_state WAIT_IN_DEEP_SLEEP v /\
  is_fast_scan_enabled (next e v) = false /\
  capsense_fast_scan_count (next e v) = capsense_fast_scan_count v /\
  armed_widget (emitted e v) = None /\
  timer_period (emitted e v) = None /\
  emitted e v =
    [process_call CY_CAPSENSE_GANGEDSENSOR_WDGT_ID] ++ tuner_only Cy_CapSense_RunTuner.
Proof.
  intros Hs Hf Ha. unfold next, emitted.
  rewrite (pass_process_touch e v Hs), (process_touch_case_slow e v Hf).
  rewrite Ha. cbn [negb Z.eqb].
  unfold vars_after, calls_of, process_call, tuner_only. cbn [fst snd].
  destruct CAPSENSE_TUNER_ENABLE; repeat split; cbn; auto.
Qed.

(** ** Runs of the loop *)

Lemma fsm_loop_cons (e : env) (es : list env) (v : task_vars) :
  fsm_loop (e :: es) v =
    (fst (fsm_loop es (next e v)), emitted e v ++ snd (fsm_loop es (next e v))).
Proof.
  cbn [fsm_loop]. destruct (fsm_loop es (next e v)); reflexivity.
Qed.

(** ** The fast-scan counter *)

Lemma detected_fast (e : env) (v : task_vars) :
  is_fast_scan_enabled v = true -> detected e v = slider_new_touch e v.
Proof.
  intros Hf. unfold detected. rewrite Hf, process_touch_slider. reflexivity.
Qed.

Lemma detected_slow (e : env) (v : task_vars) :
  is_fast_scan_enabled v = false -> detected e v = negb (IsWidgetActive e =? 0).
Proof.
  intros Hf. unfold detected. rewrite Hf, process_touch_ganged. reflexivity.
Qed.

Lemma after_slider_frame (e : env) (v : task_vars) :
  state (after_slider e v) = state v /\
  is_fast_scan_enabled (after_slider e v) = is_fast_scan_enabled v /\
  capsense_fast_scan_count (after_slider e v) = capsense_fast_scan_count v.
Proof.
  unfold after_slider. destruct (slider_new_touch e v); repeat split.
Qed.

Lemma uint32_small (n : Z) : 0 <= n < 4294967296 -> uint32 n = n.
Proof. intros H. unfold uint32. change (2 ^ 32) with 4294967296. now apply Z.mod_small. Qed.

(** The counter after one pass, for a counter that is in range before it. *)
Lemma count_after_pass (e : env) (v : task_vars) :
  count_in_range v ->
  capsense_fast_scan_count (next e v) =
    if state v =? PROCESS_TOUCH then
      if detected e v then RESET_CAPSENSE_FAST_SCAN_COUNT
      else if is_fast_scan_enabled v
              && (capsense_fast_scan_count v <? MAX_CAPSENSE_FAST_SCAN_COUNT)
           then capsense_fast_scan_count v + 1
           else capsense_fast_scan_count v
    else capsense_fast_scan_count v.
Proof.
  unfold count_in_range, MAX_CAPSENSE_FAST_SCAN_COUNT. intros Hr. unfold next.
  destruct (state_cases v) as [H | [H | [H | [H | (H1 & H2 & H3 & H4)]]]].
  - rewrite H. change (INITIATE_SCAN =? PROCESS_TOUCH) with false.
    destruct (Z.eq_dec (IsBusy e) CY_CAPSENSE_NOT_BUSY) as [Hb | Hb].
    + now rewrite (pass_initiate_scan_idle e v H Hb).
    + now rewrite (pass_initiate_scan_busy e v H Hb).
  - rewrite H. now rewrite (pass_wait_in_sleep e v H).
  - rewrite H. now rewrite (pass_wait_in_deep_sleep e v H).
  - rewrite H, Z.eqb_refl, (pass_process_touch e v H).
    destruct (is_fast_scan_enabled v) eqn:Hf.
    + rewrite (process_touch_case_fast e v Hf), (detected_fast e v Hf).
      destruct (slider_new_touch e v); [reflexivity |].
      cbn [andb]. unfold MAX_CAPSENSE_FAST_SCAN_COUNT.
      destruct (capsense_fast_scan_count v <? 100) eqn:Hlt.
      * apply Z.ltb_lt in Hlt. unfold vars_after. cbn.
        apply uint32_small. lia.
      * unfold vars_after. cbn. apply after_slider_frame.
    + rewrite (process_touch_case_slow e v Hf), (detected_slow e v Hf).
      destruct (negb (IsWidgetActive e =? 0)); reflexivity.
  - apply Z.eqb_neq in H4 as H4'. rewrite H4'.
    now rewrite (pass_default e v H1 H2 H3 H4).
Qed.

Lemma count_in_range_next (e : env) (v : task_vars) :
  count_in_range v -> count_in_range (next e v).
Proof.
  intros Hr. unfold count_in_range. rewrite (count_after_pass e v Hr).
  unfold count_in_range, MAX_CAPSENSE_FAST_SCAN_COUNT,
    RESET_CAPSENSE_FAST_SCAN_COUNT in *.
  destruct (state v =? PROCESS_TOUCH); [| exact Hr].
  destruct (detected e v); [lia |].
  destruct (is_fast_scan_enabled v); cbn [andb]; [| exact Hr].
  destruct (capsense_fast_scan_count v <? 100) eqn:Hlt; [| exact Hr].
  apply Z.ltb_lt in Hlt. lia.
Qed.

Lemma count_in_range_loop (es : list env) (v : task_vars) :
  count_in_range v -> count_in_range (fst (fsm_loop es v)).
Proof.
  revert v. induction es as [| e es IH]; intros v Hr.
  - exact Hr.
  - rewrite fsm_loop_cons. cbn [fst]. apply IH, count_in_range_next, Hr.
Qed.

(** C7. [capsense_fast_scan_count] starts at
    [RESET_CAPSENSE_FAST_SCAN_COUNT] = 1 and lies between 1 and
    [MAX_CAPSENSE_FAST_SCAN_COUNT] after any number of passes of the loop,
    whatever the environment answers.  A pass changes it only in
    [PROCESS_TOUCH]: back to 1 when a touch is detected (a new touch on the
    slider in fast scan, the ganged sensor active in slow scan), up by one
    in fast scan when it is strictly below the maximum, and not at all
    otherwise. *)
Theorem fast_scan_count_in_range (es : list env) (e : env) :
  let v := fst (fsm_loop es initial_vars) in
  capsense_fast_scan_count initial_vars = 1 /\
  1 <= capsense_fast_scan_count v <= MAX_CAPSENSE_FAST_SCAN_COUNT /\
  capsense_fast_scan_count (next e v) =
    (if state v =? PROCESS_TOUCH then
       if detected e v then 1
       else if is_fast_scan_enabled v
               && (capsense_fast_scan_count v <? MAX_CAPSENSE_FAST_SCAN_COUNT)
            then capsense_fast_scan_count v + 1
            else capsense_fast_scan_count v
     else capsense_fast_scan_count v).
Proof.
  cbv zeta.
  assert (H0 : count_in_range initial_vars).
  { unfold count_in_range, MAX_CAPSENSE_FAST_SCAN_COUNT. cbn.
    unfold RESET_CAPSENSE_FAST_SCAN_COUNT. lia. }
  pose proof (count_in_range_loop es initial_vars H0) as Hr.
  split; [reflexivity |]. split; [exact Hr |].
  apply (count_after_pass e _ Hr).
Qed.

(** ** Cadence: the fall-back to slow scan *)

Lemma timer_period_app (t u : list call) :
  timer_period (t ++ u) =
    match timer_period u with Some p => Some p | None => timer_period t end.
Proof.
  induction t as [| c t IH]; cbn [app timer_period].
  - destruct (timer_period u); reflexivity.
  - rewrite IH. destruct (timer_period u); reflexivity.
Qed.

Lemma armed_widget_app (t u : list call) :
  armed_widget (t ++ u) =
    match armed_widget u with Some w => Some w | None => armed_widget t end.
Proof.
  induction t as [| c t IH]; cbn [app armed_widget].
  - destruct (armed_widget u); reflexivity.
  - rewrite IH. destruct (armed_widget u); reflexivity.
Qed.

Lemma reprogrammings_app (t u : list call) :
  reprogrammings (t ++ u) = reprogrammings t + reprogrammings u.
Proof.
  induction t as [| c t IH]; cbn [app reprogrammings]; [reflexivity |].
  destruct c; lia.
Qed.

Lemma other_pass_frame (e : env) (v : task_vars) :
  state v <> PROCESS_TOUCH ->
  is_fast_scan_enabled (next e v) = is_fast_scan_enabled v /\
  capsense_fast_scan_count (next e v) = capsense_fast_scan_count v /\
  slider_pos_prev (next e v) = slider_pos_prev v /\
  cadence_silent (emitted e v).
Proof.
  intros Hs. unfold next, emitted, cadence_silent.
  destruct (state_cases v) as [H | [H | [H | [H | (H1 & H2 & H3 & H4)]]]].
  - destruct (Z.eq_dec (IsBusy e) CY_CAPSENSE_NOT_BUSY) as [Hb | Hb].
    + rewrite (pass_initiate_scan_idle e v H Hb).
      destruct CAPSENSE_TUNER_ENABLE; repeat split.
    + rewrite (pass_initiate_scan_busy e v H Hb). repeat split.
  - rewrite (pass_wait_in_sleep e v H).
    destruct CAPSENSE_TUNER_ENABLE; repeat split.
  - rewrite (pass_wait_in_deep_sleep e v H).
    destruct CAPSENSE_TUNER_ENABLE; repeat split.
  - contradiction.
  - rewrite (pass_default e v H1 H2 H3 H4). repeat split.
Qed.

Lemma fast_miss_below_max (e : env) (v : task_vars) :
  state v = PROCESS_TOUCH ->
  is_fast_scan_enabled v = true ->
  detected e v = false ->
  0 <= capsense_fast_scan_count v < MAX_CAPSENSE_FAST_SCAN_COUNT ->
  is_fast_scan_enabled (next e v) = true /\
  capsense_fast_scan_count (next e v) = capsense_fast_scan_count v + 1 /\
  cadence_silent (emitted e v).
Proof.
  intros Hs Hf Hd Hc. unfold next, emitted, cadence_silent.
  rewrite (detected_fast e v Hf) in Hd.
  rewrite (pass_process_touch e v Hs), (process_touch_case_fast e v Hf), Hd.
  destruct (Z.ltb_spec (capsense_fast_scan_count v) MAX_CAPSENSE_FAST_SCAN_COUNT) as [Hlt | Hge];
    [| lia].
  unfold vars_after, calls_of, process_call, tuner_only. cbn [fst snd].
  destruct (after_slider_frame e v) as (_ & Hf' & _).
  repeat split.
  - cbn [is_fast_scan_enabled set_state set_capsense_fast_scan_count].
    now rewrite Hf'.
  - cbn [capsense_fast_scan_count set_state set_capsense_fast_scan_count].
    apply uint32_small. unfold MAX_CAPSENSE_FAST_SCAN_COUNT in *. lia.
  - destruct CAPSENSE_TUNER_ENABLE; reflexivity.
  - destruct CAPSENSE_TUNER_ENABLE; reflexivity.
  - destruct CAPSENSE_TUNER_ENABLE; reflexivity.
Qed.

Lemma fast_miss_at_max (e : env) (v : task_vars) :
  state v = PROCESS_TOUCH ->
  is_fast_scan_enabled v = true ->
  detected e v = false ->
  MAX_CAPSENSE_FAST_SCAN_COUNT <= capsense_fast_scan_count v ->
  is_fast_scan_enabled (next e v) = false /\
  capsense_fast_scan_count (next e v) = capsense_fast_scan_count v /\
  timer_period (emitted e v) = Some CAPSENSE_SLOW_SCAN_INTERVAL_MS /\
  reprogrammings (emitted e v) = 1 /\
  armed_widget (emitted e v) =
    (if CAPSENSE_TUNER_ENABLE then None else Some CY_CAPSENSE_GANGEDSENSOR_WDGT_ID).
Proof.
  intros Hs Hf Hd Hc. unfold next, emitted.
  rewrite (detected_fast e v Hf) in Hd.
  rewrite (pass_process_touch e v Hs), (process_touch_case_fast e v Hf), Hd.
  destruct (Z.ltb_spec (capsense_fast_scan_count v) MAX_CAPSENSE_FAST_SCAN_COUNT) as [Hlt | Hge];
    [lia |].
  unfold vars_after, calls_of, process_call, tuner_only, restricted_only.
  cbn [fst snd].
  destruct (after_slider_frame e v) as (_ & _ & Hc').
  repeat split.
  - cbn [capsense_fast_scan_count set_state set_is_fast_scan_enabled].
    exact Hc'.
  - destruct CAPSENSE_TUNER_ENABLE; reflexivity.
  - destruct CAPSENSE_TUNER_ENABLE; reflexivity.
  - destruct CAPSENSE_TUNER_ENABLE; reflexivity.
Qed.

Lemma slow_miss (e : env) (v : task_vars) :
  state v = PROCESS_TOUCH ->
  is_fast_scan_enabled v = false ->
  detected e v = false ->
  next e v = set_state WAIT_IN_DEEP_SLEEP v /\
  cadence_silent (emitted e v).
Proof.
  intros Hs Hf Hd. unfold next, emitted, cadence_silent.
  rewrite (detected_slow e v Hf) in Hd.
  rewrite (pass_process_touch e v Hs), (process_touch_case_slow e v Hf), Hd.
  unfold vars_after, calls_of, process_call, tuner_only. cbn [fst snd].
  destruct CAPSENSE_TUNER_ENABLE; repeat split.
Qed.

Lemma processing_passes_cons (e : env) (es : list env) (v : task_vars) :
  processing_passes (e :: es) v =
    (if state v =? PROCESS_TOUCH then 1 else 0) + processing_passes es (next e v).
Proof.
  unfold processing_passes. cbn [passes filter].
  unfold is_processing at 1. cbn [before].
  destruct (state v =? PROCESS_TOUCH); cbn [List.length];
    rewrite ?Nat2Z.inj_succ; lia.
Qed.

Lemma processing_passes_nonneg (es : list env) (v : task_vars) :
  0 <= processing_passes es v.
Proof. unfold processing_passes. lia. Qed.

Lemma no_touch_throughout_cons (e : env) (es : list env) (v : task_vars) :
  no_touch_throughout (e :: es) v =
    negb ((state v =? PROCESS_TOUCH) && detected e v)
    && no_touch_throughout es (next e v).
Proof. reflexivity. Qed.

Ltac compare_all :=
  repeat match goal with
    | |- context [?a <=? ?b] => destruct (Z.leb_spec a b)
    | |- context [?a <? ?b] => destruct (Z.ltb_spec a b)
    end.

Ltac compare_all_eq :=
  repeat match goal with
    | |- context [?a <=? ?b] => destruct (Z.leb_spec a b)
    | |- context [?a <? ?b] => destruct (Z.ltb_spec a b)
    | |- context [?a =? ?b] => destruct (Z.eqb_spec a b)
    end.

(** A run without detected touch, from any counter in range: the scan is
    fast at the end exactly when it was fast at the start and the counter
    plus the number of processing passes does not exceed the maximum; the
    counter has grown by that number, up to the maximum; and the timer was
    reprogrammed, once and to the slow interval, exactly when the scan went
    from fast to slow. *)
Lemma quiet_run (es : list env) :
  forall v : task_vars,
    count_in_range v ->
    no_touch_throughout es v = true ->
    let n := processing_passes es v in
    let switched :=
      is_fast_scan_enabled v
      && (MAX_CAPSENSE_FAST_SCAN_COUNT <? capsense_fast_scan_count v + n) in
    is_fast_scan_enabled (fst (fsm_loop es v)) =
      is_fast_scan_enabled v
      && (capsense_fast_scan_count v + n <=? MAX_CAPSENSE_FAST_SCAN_COUNT) /\
    capsense_fast_scan_count (fst (fsm_loop es v)) =
      (if is_fast_scan_enabled v
       then Z.min (capsense_fast_scan_count v + n) MAX_CAPSENSE_FAST_SCAN_COUNT
       else capsense_fast_scan_count v) /\
    timer_period (snd (fsm_loop es v)) =
      (if switched then Some CAPSENSE_SLOW_SCAN_INTERVAL_MS else None) /\
    reprogrammings (snd (fsm_loop es v)) = (if switched then 1 else 0) /\
    armed_widget (snd (fsm_loop es v)) =
      (if switched && negb CAPSENSE_TUNER_ENABLE
       then Some CY_CAPSENSE_GANGEDSENSOR_WDGT_ID else None).
Proof.
  induction es as [| e es IH]; intros v Hr Hq; cbv zeta.
  - unfold processing_passes, count_in_range in *. cbn.
    destruct (is_fast_scan_enabled v); cbn [andb]; compare_all;
      try lia; repeat split; lia.
  - rewrite no_touch_throughout_cons in Hq.
    apply andb_true_iff in Hq as [Hd Hq]. apply negb_true_iff in Hd.
    pose proof (processing_passes_nonneg es (next e v)) as Hn.
    pose proof (count_in_range_next e v Hr) as Hr'.
    specialize (IH (next e v) Hr' Hq). cbv zeta in IH.
    destruct IH as (IHf & IHc & IHt & IHr & IHa).
    rewrite fsm_loop_cons, processing_passes_cons. cbn [fst snd].
    rewrite timer_period_app, armed_widget_app, reprogrammings_app.
    rewrite IHf, IHc, IHt, IHr, IHa. clear IHf IHc IHt IHr IHa.
    unfold count_in_range in Hr.
    destruct (Z.eqb_spec (state v) PROCESS_TOUCH) as [Hs | Hs].
    + cbn [andb] in Hd.
      destruct (is_fast_scan_enabled v) eqn:Hf.
      * destruct (Z_lt_le_dec (capsense_fast_scan_count v) MAX_CAPSENSE_FAST_SCAN_COUNT)
          as [Hlt | Hge].
        -- destruct (fast_miss_below_max e v Hs Hf Hd ltac:(lia))
             as (Hf' & Hc' & Ht & Ha & Hp).
           rewrite Hf', Hc', Ht, Ha, Hp. cbn [andb].
           compare_all; try lia; repeat split; try lia;
             destruct CAPSENSE_TUNER_ENABLE; reflexivity.
        -- destruct (fast_miss_at_max e v Hs Hf Hd Hge)
             as (Hf' & Hc' & Ht & Hp & Ha).
           rewrite Hf', Hc', Ht, Ha, Hp. cbn [andb].
           compare_all; try lia; repeat split; try lia;
             destruct CAPSENSE_TUNER_ENABLE; reflexivity.
      * destruct (slow_miss e v Hs Hf Hd) as (Hv & Ht & Ha & Hp).
        rewrite Hv, Ht, Ha, Hp.
        cbn [is_fast_scan_enabled capsense_fast_scan_count set_state].
        rewrite Hf. cbn [andb]. repeat split.
    + destruct (other_pass_frame e v Hs) as (Hf' & Hc' & _ & Ht & Ha & Hp).
      rewrite Hf', Hc', Ht, Ha, Hp, Z.add_0_l.
      destruct (is_fast_scan_enabled v); cbn [andb];
        compare_all; try lia; repeat split;
        destruct CAPSENSE_TUNER_ENABLE; reflexivity.
Qed.

Lemma fsm_loop_app (es es' : list env) :
  forall v : task_vars,
    fst (fsm_loop (es ++ es') v) = fst (fsm_loop es' (fst (fsm_loop es v))).
Proof.
  induction es as [| e es IH]; intros v; [reflexivity |].
  cbn [app]. rewrite !fsm_loop_cons. cbn [fst]. apply IH.
Qed.

Lemma passes_app (es es' : list env) :
  forall v : task_vars,
    passes (es ++ es') v = passes es v ++ passes es' (fst (fsm_loop es v)).
Proof.
  induction es as [| e es IH]; intros v; [reflexivity |].
  cbn [app passes]. rewrite fsm_loop_cons. cbn [fst]. now rewrite IH.
Qed.

Lemma no_touch_throughout_app (es es' : list env) (v : task_vars) :
  no_touch_throughout (es ++ es') v =
    no_touch_throughout es v && no_touch_throughout es' (fst (fsm_loop es v)).
Proof.
  unfold no_touch_throughout. now rewrite passes_app, forallb_app.
Qed.

(** C4. From fast scan with the counter at 1, over a run of the loop in
    which no processing pass detects a touch, the scan is slow at the end
    exactly when the run had at least [MAX_CAPSENSE_FAST_SCAN_COUNT]
    processing passes.  With fewer the timer was asked for no new period
    and no widget was set up; with that many or more the timer was asked
    for a new period exactly once, [CAPSENSE_SLOW_SCAN_INTERVAL_MS], and
    (restricted build) the ganged sensor was set up.  The pass that does
    this is the processing pass that follows
    [MAX_CAPSENSE_FAST_SCAN_COUNT - 1] misses, that is the
    [MAX_CAPSENSE_FAST_SCAN_COUNT]-th miss: no pass before it and none
    after it. *)
Theorem fallback_at_max_misses (es : list env) (e : env) (v : task_vars) :
  is_fast_scan_enabled v = true ->
  capsense_fast_scan_count v = 1 ->
  no_touch_throughout (es ++ [e]) v = true ->
  let n := processing_passes es v in
  let before_max := n <? MAX_CAPSENSE_FAST_SCAN_COUNT in
  let v1 := fst (fsm_loop es v) in
  let max_th_miss :=
    (state v1 =? PROCESS_TOUCH) && (n + 1 =? MAX_CAPSENSE_FAST_SCAN_COUNT) in
  (* the run [es] *)
  (is_fast_scan_enabled v1 = before_max /\
   timer_period (snd (fsm_loop es v)) =
     (if before_max then None else Some CAPSENSE_SLOW_SCAN_INTERVAL_MS) /\
   reprogrammings (snd (fsm_loop es v)) = (if before_max then 0 else 1) /\
   armed_widget (snd (fsm_loop es v)) =
     (if before_max || CAPSENSE_TUNER_ENABLE
      then None else Some CY_CAPSENSE_GANGEDSENSOR_WDGT_ID)) /\
  (* the pass [e] that follows it *)
  (is_fast_scan_enabled (next e v1) = before_max && negb max_th_miss /\
   timer_period (emitted e v1) =
     (if max_th_miss then Some CAPSENSE_SLOW_SCAN_INTERVAL_MS else None) /\
   reprogrammings (emitted e v1) = (if max_th_miss then 1 else 0) /\
   armed_widget (emitted e v1) =
     (if max_th_miss && negb CAPSENSE_TUNER_ENABLE
      then Some CY_CAPSENSE_GANGEDSENSOR_WDGT_ID else None)).
Proof.
  intros Hf Hc Hq. cbv zeta.
  rewrite no_touch_throughout_app in Hq. apply andb_true_iff in Hq as [Hq He].
  unfold no_touch_throughout in He. cbn [passes forallb] in He.
  rewrite andb_true_r in He. apply negb_true_iff in He.
  unfold is_processing in He. cbn [before input] in He.
  assert (Hr : count_in_range v).
  { unfold count_in_range, MAX_CAPSENSE_FAST_SCAN_COUNT. lia. }
  pose proof (processing_passes_nonneg es v) as Hn.
  pose proof (count_in_range_loop es v Hr) as Hr1.
  destruct (quiet_run es v Hr Hq) as (Hf1 & Hc1 & Ht & Hp & Ha).
  rewrite Hf, Hc in *. cbn [andb] in *.
  split.
  - rewrite Hf1, Ht, Hp, Ha.
    compare_all; try lia; repeat split;
      destruct CAPSENSE_TUNER_ENABLE; reflexivity.
  - set (v1 := fst (fsm_loop es v)) in *.
    unfold count_in_range in Hr1.
    destruct (Z.eqb_spec (state v1) PROCESS_TOUCH) as [Hs | Hs]; cbn [andb] in *.
    + destruct (is_fast_scan_enabled v1) eqn:Hfast.
      * destruct (Z_lt_le_dec (capsense_fast_scan_count v1) MAX_CAPSENSE_FAST_SCAN_COUNT)
          as [Hlt | Hge].
        -- destruct (fast_miss_below_max e v1 Hs Hfast He ltac:(lia))
             as (Hf' & _ & Ht' & Ha' & Hp').
           rewrite Hf', Ht', Ha', Hp'.
           revert Hf1 Hc1 Hlt. compare_all_eq; intros; try lia;
             try discriminate; repeat split.
        -- destruct (fast_miss_at_max e v1 Hs Hfast He Hge)
             as (Hf' & _ & Ht' & Hp' & Ha').
           rewrite Hf', Ht', Ha', Hp'.
           revert Hf1 Hc1 Hge. compare_all_eq; intros; try lia;
             try discriminate; repeat split;
             destruct CAPSENSE_TUNER_ENABLE; reflexivity.
      * destruct (slow_miss e v1 Hs Hfast He) as (Hv & Ht' & Ha' & Hp').
        rewrite Hv, Ht', Ha', Hp'. cbn [is_fast_scan_enabled set_state].
        rewrite Hfast.
        revert Hf1. compare_all_eq; intros; try lia; try discriminate;
          repeat split.
    + destruct (other_pass_frame e v1 Hs) as (Hf' & _ & _ & Ht' & Ha' & Hp').
      rewrite Hf', Ht', Ha', Hp', andb_true_r, Hf1. repeat split.
      compare_all; lia || reflexivity.
Qed.

(** ** The first touch *)

Lemma no_processing_yet_frame (es : list env) :
  forall v : task_vars,
    no_processing_yet es v = true ->
    is_fast_scan_enabled (fst (fsm_loop es v)) = is_fast_scan_enabled v /\
    slider_pos_prev (fst (fsm_loop es v)) = slider_pos_prev v.
Proof.
  induction es as [| e es IH]; intros v H.
  - split; reflexivity.
  - unfold no_processing_yet in H. cbn [passes forallb] in H.
    apply andb_true_iff in H as [Hs H].
    unfold is_processing in Hs. cbn [before] in Hs.
    apply negb_true_iff, Z.eqb_neq in Hs.
    destruct (other_pass_frame e v Hs) as (Hf & _ & Hp & _).
    rewrite fsm_loop_cons. cbn [fst].
    destruct (IH (next e v) H) as [IHf IHp].
    rewrite IHf, IHp. auto.
Qed.

Lemma reported_positions_pass (e : env) (v : task_vars) :
  is_fast_scan_enabled v = true ->
  reported_positions (emitted e v) =
    if (state v =? PROCESS_TOUCH) && slider_new_touch e v
    then [ptrPosition_x e] else [].
Proof.
  intros Hf. unfold emitted.
  destruct (state_cases v) as [H | [H | [H | [H | (H1 & H2 & H3 & H4)]]]].
  - rewrite H. change (INITIATE_SCAN =? PROCESS_TOUCH) with false. cbn [andb].
    destruct (Z.eq_dec (IsBusy e) CY_CAPSENSE_NOT_BUSY) as [Hb | Hb].
    + rewrite (pass_initiate_scan_idle e v H Hb).
      destruct CAPSENSE_TUNER_ENABLE; reflexivity.
    + now rewrite (pass_initiate_scan_busy e v H Hb).
  - rewrite H, (pass_wait_in_sleep e v H).
    destruct CAPSENSE_TUNER_ENABLE; reflexivity.
  - rewrite H, (pass_wait_in_deep_sleep e v H).
    destruct CAPSENSE_TUNER_ENABLE; reflexivity.
  - rewrite H, Z.eqb_refl, (pass_process_touch e v H),
      (process_touch_case_fast e v Hf).
    cbn [andb]. unfold process_call, tuner_only, restricted_only.
    destruct (slider_new_touch e v);
      [| destruct (capsense_fast_scan_count v <? MAX_CAPSENSE_FAST_SCAN_COUNT)];
      destruct CAPSENSE_TUNER_ENABLE; reflexivity.
  - apply Z.eqb_neq in H4 as H4'. rewrite H4'.
    now rewrite (pass_default e v H1 H2 H3 H4).
Qed.

(** C9. [slider_pos_prev] is 0 when the task starts and still 0 when the
    first processing pass begins, and the scan is then fast, so the slider
    is the widget processed.  In that pass [process_touch] returns true
    exactly when the number of positions is not zero and the position is
    not 0: a first touch at position 0 is not detected, whatever the
    number of positions, and no slider position is printed for it. *)
Theorem first_touch_at_zero_not_detected (es : list env) (e : env) :
  no_processing_yet es initial_vars = true ->
  let v := fst (fsm_loop es initial_vars) in
  slider_pos_prev initial_vars = 0 /\
  slider_pos_prev v = 0 /\
  is_fast_scan_enabled v = true /\
  (value_of (process_touch CY_CAPSENSE_LINEARSLIDER0_WDGT_ID e v) = true <->
   numPosition e <> 0 /\ ptrPosition_x e <> 0) /\
  (ptrPosition_x e = 0 ->
   value_of (process_touch CY_CAPSENSE_LINEARSLIDER0_WDGT_ID e v) = false /\
   detected e v = false /\
   reported_positions (emitted e v) = []).
Proof.
  intros H. cbv zeta.
  destruct (no_processing_yet_frame es initial_vars H) as [Hf Hp].
  cbn [is_fast_scan_enabled slider_pos_prev initial_vars] in Hf, Hp.
  split; [reflexivity |]. split; [exact Hp |]. split; [exact Hf |].
  rewrite (detected_fast e _ Hf), (reported_positions_pass e _ Hf).
  rewrite process_touch_slider. unfold value_of, slider_new_touch.
  cbn [fst]. rewrite Hp. split.
  - rewrite andb_true_iff, !negb_true_iff, !Z.eqb_neq. reflexivity.
  - intros Hx. rewrite Hx. cbn [Z.eqb negb]. rewrite !andb_false_r. auto.
Qed.

(** ** The deep-sleep lock *)

Lemma lock_calls_app (t u : list call) :
  lock_calls (t ++ u) = lock_calls t ++ lock_calls u.
Proof. apply filter_app. Qed.

(** A trace whose lock calls alternate holds at most one lock at any point:
    none or one when a lock comes next, one less when an unlock does. *)
Lemma alternates_bounds_prefixes (t : list call) :
  forall (lock_next : bool) (n : nat),
    alternates lock_next (lock_calls t) = true ->
    (if lock_next then 0 else -1) <= outstanding_locks (firstn n t)
      <= (if lock_next then 1 else 0).
Proof.
  induction t as [| c t IH]; intros lock_next n H.
  - rewrite firstn_nil. cbn. destruct lock_next; lia.
  - destruct n as [| n]; [cbn; destruct lock_next; lia |].
    cbn [firstn].
    destruct c; cbn [lock_calls filter is_lock_call] in H;
      cbn [outstanding_locks];
      try (exact (IH lock_next n H)).
    + cbn [alternates] in H. apply andb_true_iff in H as [Hl H].
      subst lock_next. specialize (IH false n H). cbn in IH. lia.
    + cbn [alternates] in H. apply andb_true_iff in H as [Hl H].
      apply negb_true_iff in Hl. subst lock_next.
      specialize (IH true n H). cbn in IH. lia.
Qed.

Lemma process_touch_case_locks (e : env) (v : task_vars) :
  state (vars_after (process_touch_case e v)) = WAIT_IN_DEEP_SLEEP /\
  lock_calls (calls_of (process_touch_case e v)) = [].
Proof.
  destruct (is_fast_scan_enabled v) eqn:Hf.
  - rewrite (process_touch_case_fast e v Hf).
    unfold process_call, tuner_only, restricted_only.
    destruct (slider_new_touch e v);
      [| destruct (capsense_fast_scan_count v <? MAX_CAPSENSE_FAST_SCAN_COUNT)];
      destruct CAPSENSE_TUNER_ENABLE; split; reflexivity.
  - rewrite (process_touch_case_slow e v Hf).
    unfold process_call, tuner_only, restricted_only.
    destruct (negb (IsWidgetActive e =? 0));
      destruct CAPSENSE_TUNER_ENABLE; split; reflexivity.
Qed.

(** The lock calls of one pass: a lock in [WAIT_IN_SLEEP] and an unlock in
    [WAIT_IN_DEEP_SLEEP] in the restricted build, none in the tuner build. *)
Lemma pass_lock_calls (e : env) (v : task_vars) :
  lock_calls (emitted e v) =
    if CAPSENSE_TUNER_ENABLE then []
    else if state v =? WAIT_IN_SLEEP then [cyhal_syspm_lock_deepsleep]
    else if state v =? WAIT_IN_DEEP_SLEEP then [cyhal_syspm_unlock_deepsleep]
    else [].
Proof.
  unfold emitted.
  destruct (state_cases v) as [Hs | [Hs | [Hs | [Hs | (H1 & H2 & H3 & H4)]]]].
  - rewrite Hs.
    destruct (Z.eq_dec (IsBusy e) CY_CAPSENSE_NOT_BUSY) as [Hb | Hb].
    + rewrite (pass_initiate_scan_idle e v Hs Hb).
      destruct CAPSENSE_TUNER_ENABLE; reflexivity.
    + rewrite (pass_initiate_scan_busy e v Hs Hb).
      destruct CAPSENSE_TUNER_ENABLE; reflexivity.
  - rewrite (pass_wait_in_sleep e v Hs), Hs.
    destruct CAPSENSE_TUNER_ENABLE; reflexivity.
  - rewrite (pass_wait_in_deep_sleep e v Hs), Hs.
    destruct CAPSENSE_TUNER_ENABLE; reflexivity.
  - rewrite (pass_process_touch e v Hs), Hs.
    destruct (process_touch_case_locks e v) as [_ Hl]. rewrite Hl.
    destruct CAPSENSE_TUNER_ENABLE; reflexivity.
  - rewrite (pass_default e v H1 H2 H3 H4).
    apply Z.eqb_neq in H2, H3. rewrite H2, H3.
    destruct CAPSENSE_TUNER_ENABLE; reflexivity.
Qed.

(** The state after a pass, as far as the lock is concerned. *)
Lemma lock_expected_next (e : env) (v : task_vars) :
  woken_as_expected {| before := v; input := e |} = true ->
  lock_expected (next e v) =
    if state v =? WAIT_IN_SLEEP then false
    else if state v =? WAIT_IN_DEEP_SLEEP then true
    else lock_expected v.
Proof.
  unfold woken_as_expected, next, lock_expected, vars_after. cbn [before input].
  destruct (state_cases v) as [Hs | [Hs | [Hs | [Hs | (H1 & H2 & H3 & H4)]]]].
  - intros _.
    destruct (Z.eq_dec (IsBusy e) CY_CAPSENSE_NOT_BUSY) as [Hb | Hb].
    + rewrite (pass_initiate_scan_idle e v Hs Hb). cbn [fst snd state set_state].
      now rewrite Hs.
    + rewrite (pass_initiate_scan_busy e v Hs Hb). cbn [fst snd].
      now rewrite Hs.
  - rewrite (pass_wait_in_sleep e v Hs), Hs. cbn [fst snd state set_state].
    destruct (notified e); [discriminate | reflexivity].
  - rewrite (pass_wait_in_deep_sleep e v Hs), Hs. cbn [fst snd state set_state].
    destruct (notified e); [reflexivity | discriminate].
  - intros _. rewrite (pass_process_touch e v Hs).
    destruct (process_touch_case_locks e v) as [Hs' _].
    unfold vars_after in Hs'. now rewrite Hs', Hs.
  - intros _. rewrite (pass_default e v H1 H2 H3 H4). cbn [fst snd].
    apply Z.eqb_neq in H2, H3. now rewrite H2, H3.
Qed.

(** In the tuner build the loop makes no lock call. *)
Lemma tuner_loop_no_lock_calls :
  CAPSENSE_TUNER_ENABLE = true ->
  forall (es : list env) (v : task_vars), lock_calls (snd (fsm_loop es v)) = [].
Proof.
  intros Ht es. induction es as [| e es IH]; intros v; [reflexivity |].
  rewrite fsm_loop_cons. cbn [snd].
  now rewrite lock_calls_app, pass_lock_calls, IH, Ht.
Qed.

(** A run whose waits are all woken by the event they wait for locks and
    unlocks in turn. *)
Lemma well_routed_alternates (es : list env) :
  forall v : task_vars,
    well_routed es v = true ->
    alternates (lock_expected v) (lock_calls (snd (fsm_loop es v))) = true.
Proof.
  induction es as [| e es IH]; intros v H; [reflexivity |].
  unfold well_routed in H. cbn [passes forallb] in H.
  apply andb_true_iff in H as [Hw H]. specialize (IH (next e v) H).
  rewrite fsm_loop_cons. cbn [snd].
  rewrite lock_calls_app, pass_lock_calls.
  rewrite (lock_expected_next e v Hw) in IH.
  destruct CAPSENSE_TUNER_ENABLE eqn:Ht.
  - cbn [app]. now rewrite (tuner_loop_no_lock_calls Ht).
  - revert IH. unfold lock_expected.
    destruct (state_cases v) as [Hs | [Hs | [Hs | [Hs | (H1 & H2 & H3 & H4)]]]].
    + rewrite Hs. exact (fun IH => IH).
    + rewrite Hs. exact (fun IH => IH).
    + rewrite Hs. exact (fun IH => IH).
    + rewrite Hs. exact (fun IH => IH).
    + apply Z.eqb_neq in H2, H3, H4. rewrite H2, H3, H4. exact (fun IH => IH).
Qed.

Ltac compare_status :=
  match goal with
  | |- context [Z.eqb ?a ?b] => destruct (Z.eqb_spec a b)
  end.

Lemma startup_lock_calls (b : boot) :
  (CAPSENSE_TUNER_ENABLE = false /\
   lock_calls (fst (capsense_task_startup b)) = []) \/
  (CAPSENSE_TUNER_ENABLE = true /\
   (lock_calls (fst (capsense_task_startup b)) = [] \/
    lock_calls (fst (capsense_task_startup b)) = [cyhal_syspm_lock_deepsleep])).
Proof.
  unfold capsense_task_startup, initialize_capsense_tuner, initialize_capsense,
    and_then, proceed, CY_ASSERT.
  destruct CAPSENSE_TUNER_ENABLE; cbn [fst snd app negb];
    repeat (compare_status; cbn [fst snd app negb]); auto.
Qed.

(** C2, as amended. If every wait of the run is woken by the event it waits
    for (the end of the scan in [WAIT_IN_SLEEP], the timer in
    [WAIT_IN_DEEP_SLEEP]), the calls of [cyhal_syspm_lock_deepsleep] and
    [cyhal_syspm_unlock_deepsleep] in the trace of [capsense_task]
    alternate, a lock first, and every prefix of the trace holds no lock or
    one.  In the restricted build the lock calls are made by the passes in
    [WAIT_IN_SLEEP] (one lock each) and the passes in [WAIT_IN_DEEP_SLEEP]
    (one unlock each) and by nothing else, so the first lock is taken at
    the first entry to [WAIT_IN_SLEEP]. *)
Theorem locks_alternate_when_well_routed (b : boot) (es : list env) :
  well_routed es initial_vars = true ->
  alternates true (lock_calls (fst (capsense_task b es))) = true /\
  (forall n : nat,
     0 <= outstanding_locks (firstn n (fst (capsense_task b es))) <= 1) /\
  (CAPSENSE_TUNER_ENABLE = false ->
   lock_calls (fst (capsense_task_startup b)) = [] /\
   Forall
     (fun p =>
        lock_calls (emitted (input p) (before p)) =
          if state (before p) =? WAIT_IN_SLEEP
          then [cyhal_syspm_lock_deepsleep]
          else if state (before p) =? WAIT_IN_DEEP_SLEEP
               then [cyhal_syspm_unlock_deepsleep]
               else [])
     (passes es initial_vars)).
Proof.
  intros Hw.
  assert (Ha : alternates true (lock_calls (fst (capsense_task b es))) = true).
  { unfold capsense_task.
    pose proof (startup_lock_calls b) as H0.
    pose proof (well_routed_alternates es initial_vars Hw) as H1.
    change (lock_expected initial_vars) with true in H1.
    destruct (capsense_task_startup b) as [c0 running]. cbn [fst snd] in H0.
    destruct running; cbn [fst].
    - destruct H0 as [[Ht H0] | [Ht H0]].
      + destruct (fsm_loop es initial_vars) as [v c]. cbn [fst snd] in *.
        rewrite lock_calls_app, H0. exact H1.
      + pose proof (tuner_loop_no_lock_calls Ht es initial_vars) as Hnone.
        destruct (fsm_loop es initial_vars) as [v c]. cbn [fst snd] in *.
        rewrite lock_calls_app, Hnone, app_nil_r.
        destruct H0 as [H0 | H0]; now rewrite H0.
    - destruct H0 as [[_ H0] | [_ [H0 | H0]]]; now rewrite H0. }
  split; [exact Ha |]. split.
  - intros n. exact (alternates_bounds_prefixes _ true n Ha).
  - intros Ht. split.
    + destruct (startup_lock_calls b) as [[_ H0] | [Ht' _]];
        [exact H0 | congruence].
    + clear Ha Hw. generalize initial_vars.
      induction es as [| e es IH]; intros v; cbn [passes]; constructor.
      * cbn [input before]. now rewrite pass_lock_calls, Ht.
      * apply IH.
Qed.

(** ** Start-up *)

Lemma startup_stops_on_timer_failure (b : boot) :
  xTimerStart_result b <> pdPASS -> snd (capsense_task_startup b) = false.
Proof.
  intros H. assert (Hp : (pdPASS =? xTimerStart_result b) = false).
  { apply Z.eqb_neq. intros E. apply H. now symmetry. }
  unfold capsense_task_startup, initialize_capsense_tuner, initialize_capsense,
    and_then, proceed, CY_ASSERT.
  rewrite Hp.
  destruct CAPSENSE_TUNER_ENABLE; cbn [fst snd app negb];
    repeat (compare_status; cbn [fst snd app negb]); reflexivity.
Qed.

(** The start-up code reaches the loop exactly when the tuner transport (in
    the tuner build), the three steps of [initialize_capsense] and
    [xTimerStart] all succeed. *)
Lemma startup_reaches_loop_iff (b : boot) :
  snd (capsense_task_startup b) = true <->
  (CAPSENSE_TUNER_ENABLE = true -> cyhal_ezi2c_init_result b = CY_RSLT_SUCCESS) /\
  Cy_CapSense_Init_status b = CYRET_SUCCESS /\
  Cy_CapSense_Enable_status b = CYRET_SUCCESS /\
  Cy_CapSense_RegisterCallback_status b = CYRET_SUCCESS /\
  xTimerStart_result b = pdPASS.
Proof.
  unfold capsense_task_startup, initialize_capsense_tuner, initialize_capsense,
    and_then, proceed, CY_ASSERT.
  destruct CAPSENSE_TUNER_ENABLE; cbn [fst snd app negb];
    repeat (compare_status; cbn [fst snd app negb]);
    split; intros H; try discriminate H; intuition congruence.
Qed.

(** C10. If [xTimerStart] does not return [pdPASS], [capsense_task] stops
    at the assertion and never enters its loop: whatever the environment
    would have answered, its trace is that of the start-up code alone and
    starts no scan.  This holds when everything before succeeded, too:
    when [initialize_capsense] returns [CYRET_SUCCESS], the timer's
    failure is what stops the task, after the call of [xTimerStart]. *)
Theorem timer_start_failure_halts (b : boot) (es : list env) :
  xTimerStart_result b <> pdPASS ->
  snd (capsense_task b es) = None /\
  fst (capsense_task b es) = fst (capsense_task_startup b) /\
  existsb is_start_scan (fst (capsense_task b es)) = false /\
  ((CAPSENSE_TUNER_ENABLE = true -> cyhal_ezi2c_init_result b = CY_RSLT_SUCCESS) ->
   fst (initialize_capsense b) = CYRET_SUCCESS ->
   last (fst (capsense_task b es)) xTaskNotifyWait = xTimerStart).
Proof.
  intros Hfail.
  pose proof (startup_stops_on_timer_failure b Hfail) as Hstop.
  assert (Htrace : capsense_task b es = (fst (capsense_task_startup b), None)).
  { unfold capsense_task. destruct (capsense_task_startup b) as [c0 running].
    cbn [snd] in Hstop. subst running. reflexivity. }
  rewrite Htrace. cbn [fst snd].
  split; [reflexivity |]. split; [reflexivity |].
  clear Htrace Hstop.
  assert (Hp : (pdPASS =? xTimerStart_result b) = false).
  { apply Z.eqb_neq. intros E. apply Hfail. now symmetry. }
  unfold capsense_task_startup, initialize_capsense_tuner, initialize_capsense,
    and_then, proceed, CY_ASSERT.
  rewrite Hp. clear Hp Hfail.
  destruct CAPSENSE_TUNER_ENABLE; cbn [fst snd app negb];
    repeat (compare_status; cbn [fst snd app negb]);
    (split; [reflexivity | intros Hez Hinit; cbn in Hinit |- *;
                           try reflexivity; try congruence]).
  all: exfalso; auto.
Qed.

(** * Further properties of the code *)

(** ** [initialize_capsense] and the start-up of the task *)

(** X1. [initialize_capsense] returns [CYRET_SUCCESS] exactly when
    [Cy_CapSense_Init], [Cy_CapSense_Enable] and
    [Cy_CapSense_RegisterCallback] all do; otherwise it returns the status
    of the first of them that fails and makes no call after it: the
    interrupt is not set up when [Cy_CapSense_Init] fails, and neither the
    deep-sleep callback nor the end-of-scan callback is registered when
    [Cy_CapSense_Enable] fails. *)
Theorem initialize_capsense_first_failure (b : boot) :
  let status := fst (initialize_capsense b) in
  let calls := snd (initialize_capsense b) in
  (status = CYRET_SUCCESS <->
   Cy_CapSense_Init_status b = CYRET_SUCCESS /\
   Cy_CapSense_Enable_status b = CYRET_SUCCESS /\
   Cy_CapSense_RegisterCallback_status b = CYRET_SUCCESS) /\
  (Cy_CapSense_Init_status b <> CYRET_SUCCESS ->
   status = Cy_CapSense_Init_status b /\ calls = [Cy_CapSense_Init]) /\
  (Cy_CapSense_Init_status b = CYRET_SUCCESS ->
   Cy_CapSense_Enable_status b <> CYRET_SUCCESS ->
   status = Cy_CapSense_Enable_status b /\
   calls = [Cy_CapSense_Init; Cy_SysInt_Init; NVIC_ClearPendingIRQ;
            NVIC_EnableIRQ; Cy_CapSense_Enable]) /\
  (Cy_CapSense_Init_status b = CYRET_SUCCESS ->
   Cy_CapSense_Enable_status b = CYRET_SUCCESS ->
   status = Cy_CapSense_RegisterCallback_status b /\
   calls = [Cy_CapSense_Init; Cy_SysInt_Init; NVIC_ClearPendingIRQ;
            NVIC_EnableIRQ; Cy_CapSense_Enable; Cy_SysPm_RegisterCallback;
            Cy_CapSense_RegisterCallback]).
Proof.
  cbv zeta. unfold initialize_capsense.
  destruct (Z.eqb_spec CYRET_SUCCESS (Cy_CapSense_Init_status b)) as [E1 | E1];
    cbn [negb fst snd].
  - destruct (Z.eqb_spec CYRET_SUCCESS (Cy_CapSense_Enable_status b)) as [E2 | E2];
      cbn [negb fst snd].
    + repeat split; intros; try congruence; intuition congruence.
    + repeat split; intros; try congruence; intuition congruence.
  - repeat split; intros; try congruence; intuition congruence.
Qed.

Lemma startup_calls_when_running (b : boot) :
  snd (capsense_task_startup b) = true ->
  fst (capsense_task_startup b) = successful_startup_calls.
Proof.
  unfold capsense_task_startup, initialize_capsense_tuner, initialize_capsense,
    and_then, proceed, CY_ASSERT, successful_startup_calls.
  destruct CAPSENSE_TUNER_ENABLE; cbn [fst snd app negb];
    repeat (compare_status; cbn [fst snd app negb]);
    intros H; try discriminate H; try contradiction; reflexivity.
Qed.

Lemma capsense_task_running (b : boot) (es : list env) :
  snd (capsense_task_startup b) = true ->
  capsense_task b es =
    (successful_startup_calls ++ snd (fsm_loop es initial_vars),
     Some (fst (fsm_loop es initial_vars))).
Proof.
  intros H. pose proof (startup_calls_when_running b H) as Hc.
  unfold capsense_task. destruct (capsense_task_startup b) as [c0 running].
  cbn [fst snd] in *. subst. now destruct (fsm_loop es initial_vars).
Qed.

Lemma capsense_task_stopped (b : boot) (es : list env) :
  snd (capsense_task_startup b) = false ->
  capsense_task b es = (fst (capsense_task_startup b), None).
Proof.
  intros H. unfold capsense_task.
  destruct (capsense_task_startup b) as [c0 running].
  cbn [fst snd] in *. now subst.
Qed.

(** X2. [capsense_task] enters its loop exactly when the tuner's EZI2C
    block (tuner build only), the three steps of [initialize_capsense] and
    [xTimerStart] all succeed.  It then has made the start-up calls in this
    order: the timer is created first, the tuner is initialised and deep
    sleep locked (tuner build), CapSense is initialised, the linear slider
    is set up (restricted build), and the timer is started last; the loop
    starts from the initial values of the variables. *)
Theorem capsense_task_enters_loop_iff (b : boot) (es : list env) :
  let all_succeed :=
    (CAPSENSE_TUNER_ENABLE = true -> cyhal_ezi2c_init_result b = CY_RSLT_SUCCESS) /\
    Cy_CapSense_Init_status b = CYRET_SUCCESS /\
    Cy_CapSense_Enable_status b = CYRET_SUCCESS /\
    Cy_CapSense_RegisterCallback_status b = CYRET_SUCCESS /\
    xTimerStart_result b = pdPASS in
  (snd (capsense_task b es) <> None <-> all_succeed) /\
  (all_succeed ->
   capsense_task b es =
     (successful_startup_calls ++ snd (fsm_loop es initial_vars),
      Some (fst (fsm_loop es initial_vars)))).
Proof.
  cbv zeta. pose proof (startup_reaches_loop_iff b) as Hiff.
  destruct (snd (capsense_task_startup b)) eqn:Hrun.
  - rewrite (capsense_task_running b es Hrun). cbn [snd].
    split; [| reflexivity].
    split; [intros _; now apply Hiff | discriminate].
  - rewrite (capsense_task_stopped b es Hrun). cbn [snd].
    split.
    + split; [congruence |]. intros H. apply Hiff in H. discriminate H.
    + intros H. apply Hiff in H. discriminate H.
Qed.

(** X3. If [initialize_capsense] does not return [CYRET_SUCCESS], the task
    stops at the assertion that follows it: the loop is not entered, the
    timer is never started, no widget is set up and no scan is started,
    whatever the other calls would have returned. *)
Theorem capsense_init_failure_halts (b : boot) (es : list env) :
  fst (initialize_capsense b) <> CYRET_SUCCESS ->
  snd (capsense_task b es) = None /\
  ~ In xTimerStart (fst (capsense_task b es)) /\
  armed_widget (fst (capsense_task b es)) = None /\
  existsb is_start_scan (fst (capsense_task b es)) = false.
Proof.
  intros Hfail.
  assert (Hstop : snd (capsense_task_startup b) = false).
  { destruct (snd (capsense_task_startup b)) eqn:Hrun; [| reflexivity].
    exfalso. apply Hfail.
    apply (startup_reaches_loop_iff b) in Hrun.
    destruct Hrun as (_ & E1 & E2 & E3 & _).
    unfold initialize_capsense.
    rewrite E1, E2, E3, !Z.eqb_refl. reflexivity. }
  rewrite (capsense_task_stopped b es Hstop). cbn [fst snd].
  split; [reflexivity |].
  clear Hstop. revert Hfail.
  unfold capsense_task_startup, initialize_capsense_tuner, initialize_capsense,
    and_then, proceed, CY_ASSERT.
  destruct CAPSENSE_TUNER_ENABLE; cbn [fst snd app negb];
    repeat (compare_status; cbn [fst snd app negb]);
    intros Hfail; try congruence;
    (split; [intros Hin; cbn in Hin; intuition discriminate | split; reflexivity]).
Qed.

(** X4. In the tuner build, if [cyhal_ezi2c_init] does not return
    [CY_RSLT_SUCCESS] the task stops right there: after creating the timer
    and calling [cyhal_ezi2c_init] it makes no further call, so the
    tuner's callback is not registered, deep sleep is not locked and
    CapSense is not initialised.  In the restricted build the tuner is not
    initialised at all. *)
Theorem tuner_init_failure_halts (b : boot) (es : list env) :
  (CAPSENSE_TUNER_ENABLE = true ->
   cyhal_ezi2c_init_result b <> CY_RSLT_SUCCESS ->
   capsense_task b es =
     ([xTimerCreate (pdMS_TO_TICKS CAPSENSE_FAST_SCAN_INTERVAL_MS);
       cyhal_ezi2c_init], None)) /\
  (CAPSENSE_TUNER_ENABLE = false ->
   ~ In cyhal_ezi2c_init (fst (capsense_task_startup b))).
Proof.
  split.
  - intros Ht Hfail. apply Z.eqb_neq in Hfail.
    assert (Hs : capsense_task_startup b =
                 ([xTimerCreate (pdMS_TO_TICKS CAPSENSE_FAST_SCAN_INTERVAL_MS);
                   cyhal_ezi2c_init], false)).
    { unfold capsense_task_startup, initialize_capsense_tuner, and_then,
        proceed, CY_ASSERT.
      rewrite Ht, Hfail. reflexivity. }
    unfold capsense_task. now rewrite Hs.
  - intros Ht.
    unfold capsense_task_startup, initialize_capsense, and_then, proceed, CY_ASSERT.
    rewrite Ht. cbn [fst snd app negb].
    repeat (compare_status; cbn [fst snd app negb]);
      intros Hin; cbn in Hin; intuition discriminate.
Qed.

(** ** The state variable *)

Ltac by_process_cases e v :=
  let Hf := fresh "Hf" in
  destruct (is_fast_scan_enabled v) eqn:Hf;
  [ rewrite (process_touch_case_fast e v Hf);
    destruct (slider_new_touch e v) eqn:?;
    [| destruct (capsense_fast_scan_count v <? MAX_CAPSENSE_FAST_SCAN_COUNT) eqn:?]
  | rewrite (process_touch_case_slow e v Hf);
    destruct (negb (IsWidgetActive e =? 0)) eqn:? ];
  unfold process_call, tuner_only, restricted_only;
  destruct CAPSENSE_TUNER_ENABLE eqn:?.

Lemma state_after_pass (e : env) (v : task_vars) :
  state (next e v) =
    if state v =? INITIATE_SCAN then
      if CY_CAPSENSE_NOT_BUSY =? IsBusy e then WAIT_IN_SLEEP else INITIATE_SCAN
    else if (state v =? WAIT_IN_SLEEP) || (state v =? WAIT_IN_DEEP_SLEEP) then
      notification_value (notified e)
    else if state v =? PROCESS_TOUCH then WAIT_IN_DEEP_SLEEP
    else state v.
Proof.
  unfold next, vars_after.
  destruct (state_cases v) as [Hs | [Hs | [Hs | [Hs | (H1 & H2 & H3 & H4)]]]].
  - destruct (Z.eq_dec (IsBusy e) CY_CAPSENSE_NOT_BUSY) as [Hb | Hb].
    + rewrite (pass_initiate_scan_idle e v Hs Hb), Hs, Hb, !Z.eqb_refl.
      reflexivity.
    + rewrite (pass_initiate_scan_busy e v Hs Hb). cbn [fst snd]. rewrite Hs.
      assert (Hb' : (CY_CAPSENSE_NOT_BUSY =? IsBusy e) = false).
      { apply Z.eqb_neq. congruence. }
      now rewrite Hb'.
  - rewrite (pass_wait_in_sleep e v Hs), Hs. reflexivity.
  - rewrite (pass_wait_in_deep_sleep e v Hs), Hs. reflexivity.
  - rewrite (pass_process_touch e v Hs), Hs.
    destruct (process_touch_case_locks e v) as [Hs' _]. exact Hs'.
  - rewrite (pass_default e v H1 H2 H3 H4). cbn [fst snd].
    apply Z.eqb_neq in H1, H2, H3, H4. now rewrite H1, H2, H3, H4.
Qed.

Lemma state_is_handled_next (e : env) (v : task_vars) :
  state_is_handled v = true -> state_is_handled (next e v) = true.
Proof.
  unfold state_is_handled. rewrite state_after_pass.
  destruct (state_cases v) as [Hs | [Hs | [Hs | [Hs | (H1 & H2 & H3 & H4)]]]].
  - rewrite Hs. intros _.
    destruct (CY_CAPSENSE_NOT_BUSY =? IsBusy e); reflexivity.
  - rewrite Hs. intros _. destruct (notified e); reflexivity.
  - rewrite Hs. intros _. destruct (notified e); reflexivity.
  - rewrite Hs. intros _. reflexivity.
  - apply Z.eqb_neq in H1, H2, H3, H4. rewrite H1, H2, H3, H4. discriminate.
Qed.

(** X5. The state of the task is always one of [INITIATE_SCAN],
    [WAIT_IN_SLEEP], [PROCESS_TOUCH] and [WAIT_IN_DEEP_SLEEP]: it is so
    initially, and a run of the loop keeps it so whatever the callbacks
    post and whenever they post it, so the [default] case of the switch is
    never taken.  Were the state anything else, the task would make no
    call and change no variable from then on. *)
Theorem state_stays_handled (es : list env) (v : task_vars) :
  state_is_handled (fst (fsm_loop es initial_vars)) = true /\
  (state_is_handled v = true -> state_is_handled (fst (fsm_loop es v)) = true) /\
  (state_is_handled v = false -> fsm_loop es v = (v, [])).
Proof.
  assert (Hkeep : forall w, state_is_handled w = true ->
                            state_is_handled (fst (fsm_loop es w)) = true).
  { induction es as [| e es IH]; intros w Hw; [exact Hw |].
    rewrite fsm_loop_cons. cbn [fst]. apply IH, state_is_handled_next, Hw. }
  split; [apply Hkeep; reflexivity |]. split; [apply Hkeep |].
  intros Hv. unfold state_is_handled in Hv.
  apply orb_false_iff in Hv as [Hv H3]. apply orb_false_iff in Hv as [Hv H4].
  apply orb_false_iff in Hv as [H1 H2].
  apply Z.eqb_neq in H1, H2, H3, H4. clear Hkeep.
  induction es as [| e es IH]; [reflexivity |].
  rewrite fsm_loop_cons. unfold next, emitted.
  rewrite (pass_default e v H1 H2 H3 H4).
  unfold vars_after, calls_of. cbn [fst snd]. now rewrite IH.
Qed.

(** ** Waiting for the hardware *)

Lemma fsm_loop_app_calls (es es' : list env) :
  forall v : task_vars,
    snd (fsm_loop (es ++ es') v) =
      snd (fsm_loop es v) ++ snd (fsm_loop es' (fst (fsm_loop es v))).
Proof.
  induction es as [| e es IH]; intros v; [reflexivity |].
  cbn [app]. rewrite !fsm_loop_cons. cbn [fst snd].
  now rewrite IH, app_assoc.
Qed.

Lemma all_busy_loop (es : list env) (v : task_vars) :
  state v = INITIATE_SCAN -> all_busy es = true -> fsm_loop es v = (v, []).
Proof.
  intros Hs. induction es as [| e es IH]; intros Hb; [reflexivity |].
  unfold all_busy in Hb. cbn [forallb] in Hb.
  apply andb_true_iff in Hb as [He Hb].
  apply negb_true_iff, Z.eqb_neq in He.
  assert (He' : IsBusy e <> CY_CAPSENSE_NOT_BUSY) by congruence.
  rewrite fsm_loop_cons. unfold next, emitted.
  rewrite (pass_initiate_scan_busy e v Hs He').
  unfold vars_after, calls_of. cbn [fst snd]. now rewrite (IH Hb).
Qed.

(** X6. In [INITIATE_SCAN], passes that find the hardware busy change
    nothing and make no call, however many there are: the task does not
    wait for a notification, it asks again.  The first pass that finds the
    hardware idle starts one scan, and that is the only call of the whole
    run; the state is then [WAIT_IN_SLEEP]. *)
Theorem busy_passes_then_one_scan (es : list env) (e : env) (v : task_vars) :
  state v = INITIATE_SCAN ->
  all_busy es = true ->
  IsBusy e = CY_CAPSENSE_NOT_BUSY ->
  fsm_loop es v = (v, []) /\
  fsm_loop (es ++ [e]) v = (set_state WAIT_IN_SLEEP v, [scan_call]).
Proof.
  intros Hs Hb He. pose proof (all_busy_loop es v Hs Hb) as Hloop.
  split; [exact Hloop |].
  rewrite (surjective_pairing (fsm_loop (es ++ [e]) v)).
  rewrite fsm_loop_app, fsm_loop_app_calls, Hloop. cbn [fst snd app].
  rewrite fsm_loop_cons. unfold next, emitted.
  rewrite (pass_initiate_scan_idle e v Hs He).
  unfold vars_after, calls_of, scan_call. cbn [fst snd fsm_loop app].
  reflexivity.
Qed.

(** ** Scans and their processing *)

Lemma calls_such_that_app (f : call -> bool) (t u : list call) :
  calls_such_that f (t ++ u) = calls_such_that f t + calls_such_that f u.
Proof.
  unfold calls_such_that. rewrite filter_app, length_app. lia.
Qed.

Lemma process_touch_case_counts (e : env) (v : task_vars) :
  calls_such_that is_start_scan (calls_of (process_touch_case e v)) = 0 /\
  calls_such_that is_process_call (calls_of (process_touch_case e v)) = 1 /\
  calls_such_that is_run_tuner (calls_of (process_touch_case e v)) =
    (if CAPSENSE_TUNER_ENABLE then 1 else 0) /\
  filter (if CAPSENSE_TUNER_ENABLE then is_restricted_call else is_tuner_call)
    (calls_of (process_touch_case e v)) = [].
Proof.
  by_process_cases e v; repeat split.
Qed.

(** What one pass adds to the counts of scans started, of results processed
    and of tuner synchronisations. *)
Lemma pass_counts (e : env) (v : task_vars) :
  calls_such_that is_start_scan (emitted e v) =
    (if (state v =? INITIATE_SCAN) && (CY_CAPSENSE_NOT_BUSY =? IsBusy e)
     then 1 else 0) /\
  calls_such_that is_process_call (emitted e v) =
    (if state v =? PROCESS_TOUCH then 1 else 0) /\
  calls_such_that is_run_tuner (emitted e v) =
    (if CAPSENSE_TUNER_ENABLE && (state v =? PROCESS_TOUCH) then 1 else 0) /\
  filter (if CAPSENSE_TUNER_ENABLE then is_restricted_call else is_tuner_call)
    (emitted e v) = [].
Proof.
  unfold emitted.
  destruct (state_cases v) as [Hs | [Hs | [Hs | [Hs | (H1 & H2 & H3 & H4)]]]].
  - rewrite Hs. change (INITIATE_SCAN =? INITIATE_SCAN) with true.
    change (INITIATE_SCAN =? PROCESS_TOUCH) with false.
    rewrite andb_false_r. cbn [andb].
    destruct (Z.eq_dec (IsBusy e) CY_CAPSENSE_NOT_BUSY) as [Hb | Hb].
    + rewrite (pass_initiate_scan_idle e v Hs Hb), Hb, Z.eqb_refl.
      destruct CAPSENSE_TUNER_ENABLE; repeat split.
    + rewrite (pass_initiate_scan_busy e v Hs Hb).
      assert (Hb' : (CY_CAPSENSE_NOT_BUSY =? IsBusy e) = false).
      { apply Z.eqb_neq. congruence. }
      rewrite Hb'. destruct CAPSENSE_TUNER_ENABLE; repeat split.
  - rewrite (pass_wait_in_sleep e v Hs), Hs.
    destruct CAPSENSE_TUNER_ENABLE; repeat split.
  - rewrite (pass_wait_in_deep_sleep e v Hs), Hs.
    destruct CAPSENSE_TUNER_ENABLE; repeat split.
  - rewrite (pass_process_touch e v Hs), Hs.
    change (PROCESS_TOUCH =? INITIATE_SCAN) with false.
    change (PROCESS_TOUCH =? PROCESS_TOUCH) with true.
    rewrite andb_true_r. cbn [andb].
    exact (process_touch_case_counts e v).
  - rewrite (pass_default e v H1 H2 H3 H4).
    apply Z.eqb_neq in H1, H4. rewrite H1, H4, andb_false_r.
    destruct CAPSENSE_TUNER_ENABLE; repeat split.
Qed.

Lemma pass_balance (e : env) (v : task_vars) :
  woken_as_expected {| before := v; input := e |} = true ->
  calls_such_that is_start_scan (emitted e v)
    - calls_such_that is_process_call (emitted e v) =
  scan_in_flight (next e v) - scan_in_flight v.
Proof.
  destruct (pass_counts e v) as (Hscan & Hproc & _). rewrite Hscan, Hproc.
  unfold woken_as_expected, scan_in_flight. cbn [before input].
  rewrite state_after_pass.
  destruct (state_cases v) as [Hs | [Hs | [Hs | [Hs | (H1 & H2 & H3 & H4)]]]].
  - rewrite Hs. intros _. cbn.
    destruct (CY_CAPSENSE_NOT_BUSY =? IsBusy e); reflexivity.
  - rewrite Hs. cbn. destruct (notified e); [discriminate | reflexivity].
  - rewrite Hs. cbn. destruct (notified e); [reflexivity | discriminate].
  - rewrite Hs. intros _. reflexivity.
  - apply Z.eqb_neq in H1, H2, H3, H4. rewrite H1, H2, H3, H4. intros _.
    cbn [orb andb]. rewrite H2, H4. reflexivity.
Qed.

(** X7. In a run in which every wait is woken by the event it waits for,
    scans and processing passes take turns: the number of scans started
    minus the number of results processed is 1 while the task is in
    [WAIT_IN_SLEEP] or [PROCESS_TOUCH] and 0 otherwise (counted from the
    variables at the start of the run).  So no scan is started while the
    result of the previous one is unprocessed, and no result is processed
    twice. *)
Theorem scans_and_processing_take_turns (es : list env) (v : task_vars) :
  well_routed es v = true ->
  calls_such_that is_start_scan (snd (fsm_loop es v))
    - calls_such_that is_process_call (snd (fsm_loop es v)) =
  scan_in_flight (fst (fsm_loop es v)) - scan_in_flight v.
Proof.
  revert v. induction es as [| e es IH]; intros v H.
  - cbn. lia.
  - unfold well_routed in H. cbn [passes forallb] in H.
    apply andb_true_iff in H as [Hw H].
    rewrite fsm_loop_cons. cbn [fst snd]. rewrite !calls_such_that_app.
    pose proof (pass_balance e v Hw). pose proof (IH (next e v) H). lia.
Qed.

(** X8. Every pass in [PROCESS_TOUCH] calls the processing function of the
    middleware exactly once (for one widget or for all), and no other pass
    calls it; [Cy_CapSense_RunTuner] is called exactly once in every such
    pass in the tuner build and never in the restricted build. *)
Theorem one_processing_call_per_processing_pass (es : list env) (v : task_vars) :
  calls_such_that is_process_call (snd (fsm_loop es v)) = processing_passes es v /\
  calls_such_that is_run_tuner (snd (fsm_loop es v)) =
    (if CAPSENSE_TUNER_ENABLE then processing_passes es v else 0).
Proof.
  revert v. induction es as [| e es IH]; intros v.
  - destruct CAPSENSE_TUNER_ENABLE; split; reflexivity.
  - rewrite fsm_loop_cons, processing_passes_cons. cbn [snd].
    rewrite !calls_such_that_app.
    destruct (pass_counts e v) as (_ & Hproc & Htuner & _).
    destruct (IH (next e v)) as [IHp IHt].
    rewrite Hproc, Htuner, IHp, IHt.
    destruct CAPSENSE_TUNER_ENABLE; cbn [andb];
      destruct (state v =? PROCESS_TOUCH); split; lia.
Qed.

(** ** The two builds *)

Lemma outstanding_locks_app (t u : list call) :
  outstanding_locks (t ++ u) = outstanding_locks t + outstanding_locks u.
Proof.
  induction t as [| c t IH]; cbn [app outstanding_locks]; [lia |].
  destruct c; lia.
Qed.

Lemma loop_build_calls (es : list env) :
  forall v : task_vars,
    filter (if CAPSENSE_TUNER_ENABLE then is_restricted_call else is_tuner_call)
      (snd (fsm_loop es v)) = [].
Proof.
  induction es as [| e es IH]; intros v.
  - destruct CAPSENSE_TUNER_ENABLE; reflexivity.
  - rewrite fsm_loop_cons. cbn [snd]. rewrite filter_app, IH.
    destruct (pass_counts e v) as (_ & _ & _ & Hnone). now rewrite Hnone.
Qed.

Lemma startup_build_calls (b : boot) :
  filter (if CAPSENSE_TUNER_ENABLE then is_restricted_call else is_tuner_call)
    (fst (capsense_task_startup b)) = [].
Proof.
  unfold capsense_task_startup, initialize_capsense_tuner, initialize_capsense,
    and_then, proceed, CY_ASSERT.
  destruct CAPSENSE_TUNER_ENABLE; cbn [fst snd app negb];
    repeat (compare_status; cbn [fst snd app negb]); reflexivity.
Qed.

Lemma tuner_loop_outstanding (es : list env) :
  CAPSENSE_TUNER_ENABLE = true ->
  forall v : task_vars, outstanding_locks (snd (fsm_loop es v)) = 0.
Proof.
  intros Ht. induction es as [| e es IH]; intros v; [reflexivity |].
  rewrite fsm_loop_cons. cbn [snd]. rewrite outstanding_locks_app, IH.
  unfold emitted.
  destruct (state_cases v) as [Hs | [Hs | [Hs | [Hs | (H1 & H2 & H3 & H4)]]]].
  - destruct (Z.eq_dec (IsBusy e) CY_CAPSENSE_NOT_BUSY) as [Hb | Hb].
    + now rewrite (pass_initiate_scan_idle e v Hs Hb), Ht.
    + now rewrite (pass_initiate_scan_busy e v Hs Hb).
  - now rewrite (pass_wait_in_sleep e v Hs), Ht.
  - now rewrite (pass_wait_in_deep_sleep e v Hs), Ht.
  - rewrite (pass_process_touch e v Hs).
    by_process_cases e v; try discriminate; reflexivity.
  - now rewrite (pass_default e v H1 H2 H3 H4).
Qed.

(** X9. The two builds make disjoint sets of CapSense calls, at start-up
    and in the loop alike.  The tuner build never scans or processes a
    single widget, never sets a widget up and never unlocks deep sleep:
    once its start-up has succeeded, exactly one lock is outstanding at
    the end of every run.  The restricted build never scans or processes
    all widgets, never runs the tuner and never touches EZI2C. *)
Theorem builds_make_disjoint_calls (b : boot) (es : list env) :
  (CAPSENSE_TUNER_ENABLE = true ->
   filter is_restricted_call (fst (capsense_task b es)) = [] /\
   (snd (capsense_task_startup b) = true ->
    outstanding_locks (fst (capsense_task b es)) = 1)) /\
  (CAPSENSE_TUNER_ENABLE = false ->
   filter is_tuner_call (fst (capsense_task b es)) = []).
Proof.
  pose proof (startup_build_calls b) as Hs.
  pose proof (loop_build_calls es initial_vars) as Hl.
  assert (Hall : filter (if CAPSENSE_TUNER_ENABLE
                         then is_restricted_call else is_tuner_call)
                   (fst (capsense_task b es)) = []).
  { destruct (snd (capsense_task_startup b)) eqn:Hrun.
    - rewrite (capsense_task_running b es Hrun). cbn [fst].
      rewrite <- (startup_calls_when_running b Hrun), filter_app, Hs, Hl.
      reflexivity.
    - rewrite (capsense_task_stopped b es Hrun). exact Hs. }
  split; intros Ht; rewrite Ht in Hall.
  - split; [exact Hall |]. intros Hrun.
    rewrite (capsense_task_running b es Hrun). cbn [fst].
    rewrite outstanding_locks_app, (tuner_loop_outstanding es Ht).
    unfold successful_startup_calls. rewrite Ht. reflexivity.
  - exact Hall.
Qed.

(** ** Mode, timer and widget *)

Lemma reprogrammings_nonneg (t : list call) : 0 <= reprogrammings t.
Proof.
  induction t as [| c t IH]; cbn [reprogrammings]; [lia |]. destruct c; lia.
Qed.

(** A pass either keeps the mode and makes no cadence call, or changes the
    mode and asks for the interval and (restricted build) the widget of the
    new mode. *)
Lemma pass_cadence (e : env) (v : task_vars) :
  (is_fast_scan_enabled (next e v) = is_fast_scan_enabled v /\
   cadence_silent (emitted e v)) \/
  (timer_period (emitted e v) =
     Some (interval_for_mode (is_fast_scan_enabled (next e v))) /\
   reprogrammings (emitted e v) = 1 /\
   armed_widget (emitted e v) =
     (if CAPSENSE_TUNER_ENABLE then None
      else Some (widget_for_mode (is_fast_scan_enabled (next e v))))).
Proof.
  destruct (Z.eq_dec (state v) PROCESS_TOUCH) as [Hs | Hs].
  - destruct (after_slider_frame e v) as (_ & Hfr & _).
    unfold next, emitted, cadence_silent.
    rewrite (pass_process_touch e v Hs).
    by_process_cases e v; unfold vars_after, calls_of;
      cbn [fst snd is_fast_scan_enabled set_state set_capsense_fast_scan_count
             set_is_fast_scan_enabled];
      rewrite ?Hfr;
      first [ left; repeat split; assumption
            | right; repeat split ].
  - left. destruct (other_pass_frame e v Hs) as (Hf & _ & _ & Hsil). auto.
Qed.

Lemma loop_cadence (es : list env) :
  forall v : task_vars,
    (is_fast_scan_enabled (fst (fsm_loop es v)) = is_fast_scan_enabled v /\
     cadence_silent (snd (fsm_loop es v))) \/
    (timer_period (snd (fsm_loop es v)) =
       Some (interval_for_mode (is_fast_scan_enabled (fst (fsm_loop es v)))) /\
     0 < reprogrammings (snd (fsm_loop es v)) /\
     armed_widget (snd (fsm_loop es v)) =
       (if CAPSENSE_TUNER_ENABLE then None
        else Some (widget_for_mode (is_fast_scan_enabled (fst (fsm_loop es v)))))).
Proof.
  induction es as [| e es IH]; intros v.
  - left. repeat split.
  - rewrite fsm_loop_cons. cbn [fst snd]. unfold cadence_silent.
    rewrite !timer_period_app, !armed_widget_app, !reprogrammings_app.
    pose proof (reprogrammings_nonneg (emitted e v)) as Hn.
    assert (Hpa : CAPSENSE_TUNER_ENABLE = true -> armed_widget (emitted e v) = None).
    { intros Htun.
      destruct (pass_cadence e v) as [(_ & _ & Ha' & _) | (_ & _ & Ha')];
        [exact Ha' | now rewrite Ha', Htun]. }
    destruct (IH (next e v)) as [(Hf & Ht & Ha & Hr) | (Ht & Hr & Ha)].
    + rewrite Hf, Ht, Ha, Hr.
      destruct (pass_cadence e v) as [(Hf' & Ht' & Ha' & Hr') | (Ht' & Hr' & Ha')].
      * left. rewrite Ht', Ha', Hr'. repeat split; auto.
      * right. rewrite Ht', Ha', Hr'. repeat split;
          try lia; destruct CAPSENSE_TUNER_ENABLE; reflexivity.
    + right. rewrite Ht, Ha. repeat split; try lia.
      destruct CAPSENSE_TUNER_ENABLE; [now apply Hpa | reflexivity].
Qed.

(** X10. Timer and widget follow the mode, whatever events arrive: once
    [capsense_task] is in its loop, the period last requested from the
    timer is that of the creation, [pdMS_TO_TICKS] of the fast interval,
    while the task has never left fast scan, and otherwise the constant
    [CAPSENSE_FAST_SCAN_INTERVAL_MS] or [CAPSENSE_SLOW_SCAN_INTERVAL_MS]
    (given to [xTimerChangePeriod] as it is) according to the current
    mode; and in the restricted build the widget last set up is the linear
    slider in fast scan and the ganged sensor in slow scan. *)
Theorem timer_and_widget_follow_mode (b : boot) (es : list env) :
  snd (capsense_task_startup b) = true ->
  let t := fst (capsense_task b es) in
  let fast := is_fast_scan_enabled (fst (fsm_loop es initial_vars)) in
  timer_period t =
    Some (if reprogrammings t =? 0
          then pdMS_TO_TICKS CAPSENSE_FAST_SCAN_INTERVAL_MS
          else interval_for_mode fast) /\
  (reprogrammings t = 0 -> fast = true) /\
  armed_widget t =
    (if CAPSENSE_TUNER_ENABLE then None else Some (widget_for_mode fast)).
Proof.
  intros Hrun. cbv zeta. rewrite (capsense_task_running b es Hrun). cbn [fst].
  rewrite timer_period_app, armed_widget_app, reprogrammings_app.
  assert (Hs : timer_period successful_startup_calls =
                 Some (pdMS_TO_TICKS CAPSENSE_FAST_SCAN_INTERVAL_MS) /\
               reprogrammings successful_startup_calls = 0 /\
               armed_widget successful_startup_calls =
                 (if CAPSENSE_TUNER_ENABLE then None
                  else Some CY_CAPSENSE_LINEARSLIDER0_WDGT_ID)).
  { unfold successful_startup_calls.
    destruct CAPSENSE_TUNER_ENABLE; repeat split. }
  destruct Hs as (Hst & Hsr & Hsa). rewrite Hst, Hsr, Hsa.
  destruct (loop_cadence es initial_vars) as [(Hf & Ht & Ha & Hr) | (Ht & Hr & Ha)].
  - rewrite Hf, Ht, Ha, Hr. cbn. repeat split.
  - rewrite Ht, Ha.
    destruct (Z.eqb_spec (0 + reprogrammings (snd (fsm_loop es initial_vars))) 0);
      [lia |].
    repeat split; [lia |]. destruct CAPSENSE_TUNER_ENABLE; reflexivity.
Qed.

Lemma loop_timer_setup (es : list env) :
  forall v : task_vars, filter is_timer_setup (snd (fsm_loop es v)) = [].
Proof.
  induction es as [| e es IH]; intros v; [reflexivity |].
  rewrite fsm_loop_cons. cbn [snd]. rewrite filter_app, IH, app_nil_r.
  unfold emitted.
  destruct (state_cases v) as [Hs | [Hs | [Hs | [Hs | (H1 & H2 & H3 & H4)]]]].
  - destruct (Z.eq_dec (IsBusy e) CY_CAPSENSE_NOT_BUSY) as [Hb | Hb].
    + rewrite (pass_initiate_scan_idle e v Hs Hb).
      destruct CAPSENSE_TUNER_ENABLE; reflexivity.
    + now rewrite (pass_initiate_scan_busy e v Hs Hb).
  - rewrite (pass_wait_in_sleep e v Hs).
    destruct CAPSENSE_TUNER_ENABLE; reflexivity.
  - rewrite (pass_wait_in_deep_sleep e v Hs).
    destruct CAPSENSE_TUNER_ENABLE; reflexivity.
  - rewrite (pass_process_touch e v Hs). by_process_cases e v; reflexivity.
  - now rewrite (pass_default e v H1 H2 H3 H4).
Qed.

(** X11. The timer is created once, before anything else, and started at
    most once, and the loop never creates, starts or stops a timer: in
    every trace of [capsense_task] the calls of [xTimerCreate] and
    [xTimerStart] are the creation with [pdMS_TO_TICKS] of the fast
    interval, followed by the start if the start-up got that far. *)
Theorem one_timer_started_once (b : boot) (es : list env) :
  let setup := filter is_timer_setup (fst (capsense_task b es)) in
  hd_error (fst (capsense_task b es)) =
    Some (xTimerCreate (pdMS_TO_TICKS CAPSENSE_FAST_SCAN_INTERVAL_MS)) /\
  (setup = [xTimerCreate (pdMS_TO_TICKS CAPSENSE_FAST_SCAN_INTERVAL_MS)] \/
   setup = [xTimerCreate (pdMS_TO_TICKS CAPSENSE_FAST_SCAN_INTERVAL_MS); xTimerStart]) /\
  (snd (capsense_task b es) <> None ->
   setup = [xTimerCreate (pdMS_TO_TICKS CAPSENSE_FAST_SCAN_INTERVAL_MS); xTimerStart]).
Proof.
  cbv zeta.
  destruct (snd (capsense_task_startup b)) eqn:Hrun.
  - rewrite (capsense_task_running b es Hrun). cbn [fst snd].
    rewrite filter_app, loop_timer_setup, app_nil_r.
    unfold successful_startup_calls.
    destruct CAPSENSE_TUNER_ENABLE; repeat split; auto.
  - rewrite (capsense_task_stopped b es Hrun). cbn [fst snd].
    split; [| split; [| congruence]]; clear Hrun;
      unfold capsense_task_startup, initialize_capsense_tuner,
        initialize_capsense, and_then, proceed, CY_ASSERT;
      destruct CAPSENSE_TUNER_ENABLE; cbn [fst snd app negb];
      repeat (compare_status; cbn [fst snd app negb]); auto.
Qed.

(** ** Reported positions *)

Lemma reported_positions_app (t u : list call) :
  reported_positions (t ++ u) = reported_positions t ++ reported_positions u.
Proof.
  induction t as [| c t IH]; cbn [app reported_positions]; [reflexivity |].
  rewrite IH. destruct (reported_position c); reflexivity.
Qed.

Lemma last_of_nonempty (l : list Z) (x d d' : Z) :
  last (x :: l) d = last (x :: l) d'.
Proof.
  revert x. induction l as [| y l IH]; intros x; [reflexivity |].
  change (last (x :: y :: l) d) with (last (y :: l) d).
  change (last (x :: y :: l) d') with (last (y :: l) d').
  apply IH.
Qed.

Lemma last_after_one (l : list Z) (x d : Z) :
  last ([x] ++ l) d = last l x.
Proof.
  destruct l as [| y l]; [reflexivity |].
  change (last ([x] ++ y :: l) d) with (last (y :: l) d).
  apply last_of_nonempty.
Qed.

(** What one pass prints and remembers of the slider. *)
Lemma pass_positions (e : env) (v : task_vars) :
  let new_touch :=
    (state v =? PROCESS_TOUCH) && is_fast_scan_enabled v && slider_new_touch e v in
  reported_positions (emitted e v) =
    (if new_touch then [ptrPosition_x e] else []) /\
  slider_position (next e v) =
    (if new_touch then ptrPosition_x e else slider_position v) /\
  slider_pos_prev (next e v) =
    (if (state v =? PROCESS_TOUCH) && is_fast_scan_enabled v
     then ptrPosition_x e else slider_pos_prev v).
Proof.
  cbv zeta. unfold next, emitted.
  destruct (state_cases v) as [Hs | [Hs | [Hs | [Hs | (H1 & H2 & H3 & H4)]]]].
  - rewrite Hs. change (INITIATE_SCAN =? PROCESS_TOUCH) with false. cbn [andb].
    destruct (Z.eq_dec (IsBusy e) CY_CAPSENSE_NOT_BUSY) as [Hb | Hb].
    + rewrite (pass_initiate_scan_idle e v Hs Hb).
      destruct CAPSENSE_TUNER_ENABLE; repeat split.
    + rewrite (pass_initiate_scan_busy e v Hs Hb). repeat split.
  - rewrite (pass_wait_in_sleep e v Hs), Hs.
    destruct CAPSENSE_TUNER_ENABLE; repeat split.
  - rewrite (pass_wait_in_deep_sleep e v Hs), Hs.
    destruct CAPSENSE_TUNER_ENABLE; repeat split.
  - rewrite (pass_process_touch e v Hs), Hs.
    change (PROCESS_TOUCH =? PROCESS_TOUCH) with true. cbn [andb].
    destruct (is_fast_scan_enabled v) eqn:Hf; cbn [andb].
    + rewrite (process_touch_case_fast e v Hf).
      unfold after_slider, process_call, tuner_only, restricted_only,
        vars_after, calls_of.
      destruct (slider_new_touch e v);
        [| destruct (capsense_fast_scan_count v <? MAX_CAPSENSE_FAST_SCAN_COUNT)];
        destruct CAPSENSE_TUNER_ENABLE; repeat split.
    + rewrite (process_touch_case_slow e v Hf).
      unfold process_call, tuner_only, restricted_only, vars_after, calls_of.
      destruct (negb (IsWidgetActive e =? 0));
        destruct CAPSENSE_TUNER_ENABLE; repeat split.
  - rewrite (pass_default e v H1 H2 H3 H4).
    apply Z.eqb_neq in H4. rewrite H4. repeat split.
Qed.

(** X12. A pass prints a slider position exactly when it is a processing
    pass in fast scan whose touch is new, and it prints the position that
    the driver reported in that pass; passes in slow scan print none.
    After any run, [slider_position] holds the last position printed in
    the run (its value at the start if none was printed). *)
Theorem printed_positions (es : list env) (e : env) (v : task_vars) :
  reported_positions (emitted e v) =
    (if (state v =? PROCESS_TOUCH) && is_fast_scan_enabled v && slider_new_touch e v
     then [ptrPosition_x e] else []) /\
  slider_position (fst (fsm_loop es v)) =
    last (reported_positions (snd (fsm_loop es v))) (slider_position v).
Proof.
  split; [apply pass_positions |].
  clear e. revert v. induction es as [| e es IH]; intros v; [reflexivity |].
  rewrite fsm_loop_cons. cbn [fst snd].
  rewrite reported_positions_app, IH.
  destruct (pass_positions e v) as (Hr & Hp & _). rewrite Hr, Hp.
  destruct ((state v =? PROCESS_TOUCH) && is_fast_scan_enabled v
            && slider_new_touch e v).
  - symmetry. apply last_after_one.
  - reflexivity.
Qed.

Lemma last_slider_report_spec (es : list env) :
  forall v : task_vars,
    slider_pos_prev (fst (fsm_loop es v)) =
      last_slider_report (passes es v) (slider_pos_prev v).
Proof.
  induction es as [| e es IH]; intros v; [reflexivity |].
  rewrite fsm_loop_cons. cbn [fst passes last_slider_report before input].
  rewrite IH. destruct (pass_positions e v) as (_ & _ & Hp). rewrite Hp.
  reflexivity.
Qed.

(** X13. [slider_pos_prev] is the position reported in the most recent
    pass that processed the slider, however long ago: passes in slow scan,
    waits and stray notifications leave it alone.  A pass that reports
    that same position again prints nothing, and in fast scan it counts as
    a miss, whatever the number of touches. *)
Theorem remembered_position (es : list env) (e : env) (v : task_vars) :
  let v' := fst (fsm_loop es v) in
  let remembered := last_slider_report (passes es v) (slider_pos_prev v) in
  slider_pos_prev v' = remembered /\
  (ptrPosition_x e = remembered ->
   reported_positions (emitted e v') = [] /\
   (is_fast_scan_enabled v' = true -> detected e v' = false)).
Proof.
  cbv zeta. pose proof (last_slider_report_spec es v) as Hp.
  split; [exact Hp |]. intros Hx.
  assert (Hnew : slider_new_touch e (fst (fsm_loop es v)) = false).
  { unfold slider_new_touch. rewrite Hp, <- Hx, Z.eqb_refl.
    cbn [negb]. apply andb_false_r. }
  split.
  - destruct (pass_positions e (fst (fsm_loop es v))) as (Hr & _).
    rewrite Hr, Hnew, andb_false_r. reflexivity.
  - intros Hf. now rewrite (detected_fast e _ Hf).
Qed.

(** ** A touch restarts the fast scan *)

Lemma detected_pass (e : env) (v : task_vars) :
  state v = PROCESS_TOUCH ->
  detected e v = true ->
  is_fast_scan_enabled (next e v) = true /\
  capsense_fast_scan_count (next e v) = RESET_CAPSENSE_FAST_SCAN_COUNT.
Proof.
  intros Hs Hd. unfold next. rewrite (pass_process_touch e v Hs).
  destruct (after_slider_frame e v) as (_ & Hfr & _).
  destruct (is_fast_scan_enabled v) eqn:Hf.
  - rewrite (detected_fast e v Hf) in Hd.
    rewrite (process_touch_case_fast e v Hf), Hd.
    unfold vars_after. cbn [fst snd is_fast_scan_enabled capsense_fast_scan_count
                              set_state set_capsense_fast_scan_count].
    now rewrite Hfr.
  - rewrite (detected_slow e v Hf) in Hd.
    rewrite (process_touch_case_slow e v Hf), Hd.
    split; reflexivity.
Qed.

(** X14. A detected touch (a new touch on the slider in fast scan, the
    ganged sensor active in slow scan) gives the task the full fast-scan
    time again, whatever the counter was: after it the scan is fast and
    stays fast through the next [MAX_CAPSENSE_FAST_SCAN_COUNT - 1]
    processing passes without touch, and it becomes slow, with one request
    to the timer, in the [MAX_CAPSENSE_FAST_SCAN_COUNT]-th. *)
Theorem touch_restarts_fast_scan (e0 : env) (es : list env) (v : task_vars) :
  state v = PROCESS_TOUCH ->
  detected e0 v = true ->
  no_touch_throughout es (next e0 v) = true ->
  let n := processing_passes es (next e0 v) in
  is_fast_scan_enabled (next e0 v) = true /\
  is_fast_scan_enabled (fst (fsm_loop es (next e0 v))) =
    (n <? MAX_CAPSENSE_FAST_SCAN_COUNT) /\
  reprogrammings (snd (fsm_loop es (next e0 v))) =
    (if n <? MAX_CAPSENSE_FAST_SCAN_COUNT then 0 else 1) /\
  timer_period (snd (fsm_loop es (next e0 v))) =
    (if n <? MAX_CAPSENSE_FAST_SCAN_COUNT
     then None else Some CAPSENSE_SLOW_SCAN_INTERVAL_MS).
Proof.
  intros Hs Hd Hq. cbv zeta.
  destruct (detected_pass e0 v Hs Hd) as [Hf Hc].
  assert (Hr : count_in_range (next e0 v)).
  { unfold count_in_range. rewrite Hc.
    unfold RESET_CAPSENSE_FAST_SCAN_COUNT, MAX_CAPSENSE_FAST_SCAN_COUNT. lia. }
  pose proof (processing_passes_nonneg es (next e0 v)) as Hn.
  destruct (quiet_run es (next e0 v) Hr Hq) as (Hf' & _ & Ht & Hp & _).
  rewrite Hf', Ht, Hp, Hf, Hc. cbn [andb].
  unfold RESET_CAPSENSE_FAST_SCAN_COUNT.
  split; [reflexivity |].
  compare_all; try lia; repeat split.
Qed.

End Properties.

(** * Examples: the theorems at concrete inputs *)

(** C2 as stated fails: when the timer expires during a scan, the task
    takes the lock a second time without having released it. *)
Lemma locks_pile_up_on_stray_timer :
  ~ (forall (es : list env) (n : nat),
       0 <= outstanding_locks
              (firstn n (fst (capsense_task (cfg := example_build) example_boot es)))
         <= 1).
Proof.
  intros H. specialize (H timer_overtakes_scan 100%nat).
  vm_compute in H. destruct H as [_ H]. apply H. reflexivity.
Qed.

Lemma locks_alternate_when_well_routed_witness :
  well_routed (cfg := example_build) (scan_cycle 1 5 0 ++ quiet_cycles 2) initial_vars = true /\
  alternates true
    (lock_calls
       (fst (capsense_task (cfg := example_build) example_boot
               (scan_cycle 1 5 0 ++ quiet_cycles 2)))) = true.
Proof.
  split; [reflexivity |].
  apply (locks_alternate_when_well_routed (cfg := example_build) example_boot
           (scan_cycle 1 5 0 ++ quiet_cycles 2));
    reflexivity.
Defined.

(** C3 as stated fails: the state after the wake is not the state before. *)
Lemma stray_timer_changes_state :
  ~ (forall (e : env) (v : task_vars),
       state v = WAIT_IN_SLEEP ->
       notified e = TimerExpired ->
       state (next (cfg := example_build) e v) = state v).
Proof.
  intros H.
  specialize (H (answers 1 TimerExpired 0 0 0) waiting_for_scan eq_refl eq_refl).
  vm_compute in H. discriminate H.
Qed.

Lemma stray_timer_sets_initiate_scan_witness :
  state waiting_for_scan = WAIT_IN_SLEEP /\
  notified (answers 1 TimerExpired 0 0 0) = TimerExpired /\
  state (next (cfg := example_build) (answers 1 TimerExpired 0 0 0) waiting_for_scan)
    = INITIATE_SCAN.
Proof.
  split; [reflexivity |]. split; [reflexivity |].
  apply (stray_timer_sets_initiate_scan (cfg := example_build)
           (answers 1 TimerExpired 0 0 0) waiting_for_scan);
    reflexivity.
Defined.

(** C4: after 99 quiet cycles and the scan of the 100th the scan is still
    fast; the processing pass of the 100th cycle makes it slow and asks the
    timer for 200. *)
Lemma fallback_at_max_misses_witness :
  is_fast_scan_enabled initial_vars = true /\
  capsense_fast_scan_count initial_vars = 1 /\
  no_touch_throughout (cfg := example_build)
    (before_hundredth_miss ++ [answers 0 ScanComplete 0 0 0]) initial_vars = true /\
  is_fast_scan_enabled
    (fst (fsm_loop (cfg := example_build) before_hundredth_miss initial_vars)) = true /\
  is_fast_scan_enabled
    (next (cfg := example_build) (answers 0 ScanComplete 0 0 0)
       (fst (fsm_loop (cfg := example_build) before_hundredth_miss initial_vars)))
    = false /\
  timer_period
    (emitted (cfg := example_build) (answers 0 ScanComplete 0 0 0)
       (fst (fsm_loop (cfg := example_build) before_hundredth_miss initial_vars)))
    = Some 200.
Proof.
  split; [reflexivity |]. split; [reflexivity |].
  split; [vm_compute; reflexivity |].
  assert (Hq : no_touch_throughout (cfg := example_build)
                 (before_hundredth_miss ++ [answers 0 ScanComplete 0 0 0])
                 initial_vars = true) by (vm_compute; reflexivity).
  pose proof (fallback_at_max_misses (cfg := example_build) before_hundredth_miss
                (answers 0 ScanComplete 0 0 0) initial_vars eq_refl eq_refl Hq)
    as [(Hfast & _) (Hnext & Htimer & _)].
  split; [| split].
  - rewrite Hfast. vm_compute; reflexivity.
  - rewrite Hnext. vm_compute; reflexivity.
  - rewrite Htimer. vm_compute; reflexivity.
Defined.

Lemma slow_scan_touch_escalates_witness :
  state processing_in_slow_scan = PROCESS_TOUCH /\
  is_fast_scan_enabled processing_in_slow_scan = false /\
  IsWidgetActive (answers 0 ScanComplete 0 0 1) <> 0 /\
  is_fast_scan_enabled
    (next (cfg := example_build) (answers 0 ScanComplete 0 0 1) processing_in_slow_scan)
    = true.
Proof.
  split; [reflexivity |]. split; [reflexivity |]. split; [discriminate |].
  apply (slow_scan_touch_escalates (cfg := example_build)
           (answers 0 ScanComplete 0 0 1) processing_in_slow_scan);
    [reflexivity | reflexivity | discriminate].
Defined.

Lemma slow_scan_no_touch_frame_witness :
  state processing_in_slow_scan = PROCESS_TOUCH /\
  is_fast_scan_enabled processing_in_slow_scan = false /\
  IsWidgetActive (answers 0 ScanComplete 1 7 0) = 0 /\
  next (cfg := example_build) (answers 0 ScanComplete 1 7 0) processing_in_slow_scan
    = set_state WAIT_IN_DEEP_SLEEP processing_in_slow_scan.
Proof.
  split; [reflexivity |]. split; [reflexivity |]. split; [reflexivity |].
  apply (slow_scan_no_touch_frame (cfg := example_build)
           (answers 0 ScanComplete 1 7 0) processing_in_slow_scan);
    reflexivity.
Defined.

(** C9: the first scan finds one touch, at position 0. *)
Lemma first_touch_at_zero_not_detected_witness :
  no_processing_yet (cfg := example_build)
    [answers 0 ScanComplete 1 0 0; answers 0 ScanComplete 1 0 0] initial_vars = true /\
  reported_positions
    (emitted (cfg := example_build) (answers 0 ScanComplete 1 0 0)
       (fst (fsm_loop (cfg := example_build)
               [answers 0 ScanComplete 1 0 0; answers 0 ScanComplete 1 0 0]
               initial_vars))) = [].
Proof.
  split; [reflexivity |].
  apply (first_touch_at_zero_not_detected (cfg := example_build)
           [answers 0 ScanComplete 1 0 0; answers 0 ScanComplete 1 0 0]
           (answers 0 ScanComplete 1 0 0));
    reflexivity.
Defined.

Lemma timer_start_failure_halts_witness :
  xTimerStart_result failed_timer_boot <> pdPASS (Build := example_build) /\
  snd (capsense_task (cfg := example_build) failed_timer_boot (scan_cycle 1 5 0)) = None.
Proof.
  split; [discriminate |].
  apply (timer_start_failure_halts (cfg := example_build) failed_timer_boot
           (scan_cycle 1 5 0)).
  discriminate.
Defined.

(** Three scans that report one touch at position 5: the first is a new
    touch, the other two are not, and the counter goes 1, 2, 3. *)
Example same_position_three_times :
  let r := fsm_loop (cfg := example_build)
             (scan_cycle 1 5 0 ++ scan_cycle 1 5 0 ++ scan_cycle 1 5 0)
             initial_vars in
  reported_positions (snd r) = [5] /\
  capsense_fast_scan_count (fst r) = 3 /\
  is_fast_scan_enabled (fst r) = true.
Proof. vm_compute. repeat split. Qed.

(** The hardware is busy at the first attempt and idle at the second: one
    scan is started, at the second attempt. *)
Example busy_then_idle :
  emitted (cfg := example_build) (answers 1 TimerExpired 0 0 0) initial_vars = [] /\
  snd (fsm_loop (cfg := example_build)
         [answers 1 TimerExpired 0 0 0; answers 0 TimerExpired 0 0 0] initial_vars)
    = [Cy_CapSense_Scan].
Proof. split; reflexivity. Qed.

(** The timer expires during a scan: two locks are held at the end. *)
Example two_locks_held :
  outstanding_locks
    (fst (capsense_task (cfg := example_build) example_boot timer_overtakes_scan)) = 2.
Proof. reflexivity. Qed.

(** * Examples for the further properties *)

(** X3: [Cy_CapSense_Enable] fails with status 2. *)
Lemma capsense_init_failure_halts_witness :
  fst (initialize_capsense (cfg := example_build) failed_enable_boot)
    <> CYRET_SUCCESS (Build := example_build) /\
  snd (capsense_task (cfg := example_build) failed_enable_boot (scan_cycle 1 5 0))
    = None /\
  ~ In xTimerStart
      (fst (capsense_task (cfg := example_build) failed_enable_boot (scan_cycle 1 5 0))).
Proof.
  split; [discriminate |].
  pose proof (capsense_init_failure_halts (cfg := example_build) failed_enable_boot
                (scan_cycle 1 5 0)) as H.
  split; apply H; discriminate.
Defined.

(** X6: busy three times, then idle. *)
Lemma busy_passes_then_one_scan_witness :
  state initial_vars = INITIATE_SCAN /\
  all_busy (cfg := example_build) busy_three_times = true /\
  IsBusy (answers 0 TimerExpired 0 0 0) = CY_CAPSENSE_NOT_BUSY (Build := example_build) /\
  fsm_loop (cfg := example_build)
    (busy_three_times ++ [answers 0 TimerExpired 0 0 0]) initial_vars
    = (set_state WAIT_IN_SLEEP initial_vars, [Cy_CapSense_Scan]).
Proof.
  split; [reflexivity |]. split; [reflexivity |]. split; [reflexivity |].
  apply (busy_passes_then_one_scan (cfg := example_build) busy_three_times
           (answers 0 TimerExpired 0 0 0) initial_vars);
    reflexivity.
Defined.

(** X7: three scan cycles and the start of a fourth. *)
Lemma scans_and_processing_take_turns_witness :
  well_routed (cfg := example_build)
    (quiet_cycles 3 ++ [answers 0 ScanComplete 0 0 0]) initial_vars = true /\
  calls_such_that is_start_scan
    (snd (fsm_loop (cfg := example_build)
            (quiet_cycles 3 ++ [answers 0 ScanComplete 0 0 0]) initial_vars))
  - calls_such_that is_process_call
      (snd (fsm_loop (cfg := example_build)
              (quiet_cycles 3 ++ [answers 0 ScanComplete 0 0 0]) initial_vars))
  = 1.
Proof.
  split; [reflexivity |].
  rewrite (scans_and_processing_take_turns (cfg := example_build)
             (quiet_cycles 3 ++ [answers 0 ScanComplete 0 0 0]) initial_vars eq_refl).
  reflexivity.
Defined.

(** X10: after 100 quiet cycles the timer has been asked for 200 and the
    ganged sensor is set up. *)
Lemma timer_and_widget_follow_mode_witness :
  snd (capsense_task_startup (cfg := example_build) example_boot) = true /\
  timer_period
    (fst (capsense_task (cfg := example_build) example_boot (quiet_cycles 100)))
    = Some 200 /\
  armed_widget
    (fst (capsense_task (cfg := example_build) example_boot (quiet_cycles 100)))
    = Some 1.
Proof.
  split; [reflexivity |].
  pose proof (timer_and_widget_follow_mode (cfg := example_build) example_boot
                (quiet_cycles 100) eq_refl) as (Ht & _ & Ha).
  split.
  - rewrite Ht. vm_compute; reflexivity.
  - rewrite Ha. vm_compute; reflexivity.
Defined.

(** X14: a touch on the ganged sensor in slow scan, with the counter at the
    maximum, and then 100 quiet cycles. *)
Lemma touch_restarts_fast_scan_witness :
  state processing_in_slow_scan = PROCESS_TOUCH /\
  detected (cfg := example_build) (answers 0 ScanComplete 0 0 1)
    processing_in_slow_scan = true /\
  no_touch_throughout (cfg := example_build) hundred_quiet_cycles_after_wake
    (next (cfg := example_build) (answers 0 ScanComplete 0 0 1) processing_in_slow_scan)
    = true /\
  is_fast_scan_enabled
    (next (cfg := example_build) (answers 0 ScanComplete 0 0 1) processing_in_slow_scan)
    = true /\
  is_fast_scan_enabled
    (fst (fsm_loop (cfg := example_build) hundred_quiet_cycles_after_wake
            (next (cfg := example_build) (answers 0 ScanComplete 0 0 1)
               processing_in_slow_scan)))
    = false.
Proof.
  split; [reflexivity |]. split; [reflexivity |].
  split; [vm_compute; reflexivity |].
  assert (Hq : no_touch_throughout (cfg := example_build)
                 hundred_quiet_cycles_after_wake
                 (next (cfg := example_build) (answers 0 ScanComplete 0 0 1)
                    processing_in_slow_scan) = true) by (vm_compute; reflexivity).
  pose proof (touch_restarts_fast_scan (cfg := example_build)
                (answers 0 ScanComplete 0 0 1) hundred_quiet_cycles_after_wake
                processing_in_slow_scan eq_refl eq_refl Hq) as (Hf & Hend & _).
  split; [exact Hf |].
  rewrite Hend. vm_compute; reflexivity.
Defined.

(** X4: the tuner's EZI2C block fails in the tuner build. *)
Example tuner_transport_failure :
  capsense_task (cfg := tuner_build) failed_tuner_boot (scan_cycle 1 5 0)
    = ([xTimerCreate 20; cyhal_ezi2c_init], None).
Proof. reflexivity. Qed.

(** X9: one scan cycle in the tuner build. *)
Example tuner_build_cycle :
  fst (capsense_task (cfg := tuner_build) example_boot (scan_cycle 1 5 0))
    = [xTimerCreate 20; cyhal_ezi2c_init; cyhal_ezi2c_register_callback;
       cyhal_ezi2c_enable_event; cyhal_syspm_lock_deepsleep; Cy_CapSense_Init;
       Cy_SysInt_Init; NVIC_ClearPendingIRQ; NVIC_EnableIRQ; Cy_CapSense_Enable;
       Cy_SysPm_RegisterCallback; Cy_CapSense_RegisterCallback; xTimerStart;
       Cy_CapSense_ScanAllWidgets; xTaskNotifyWait; Cy_CapSense_ProcessAllWidgets;
       printf "Slider position = %ld\r\n" [5]; Cy_CapSense_RunTuner;
       xTaskNotifyWait].
Proof. reflexivity. Qed.

(** X13: the slider is touched at 9 and released, the scan times out after
    100 scans, and a touch on the ganged sensor brings the fast scan back:
    a touch at 9 is not new. *)
Example same_position_after_slow_scan :
  let run := scan_cycle 1 9 0
             ++ List.concat (repeat (scan_cycle 0 9 0) 100)
             ++ scan_cycle 0 9 1
             ++ [answers 0 ScanComplete 1 9 0; answers 0 ScanComplete 1 9 0] in
  let v := fst (fsm_loop (cfg := example_build) run initial_vars) in
  let t := snd (fsm_loop (cfg := example_build) run initial_vars) in
  reprogrammings t = 2 /\
  state v = PROCESS_TOUCH /\
  is_fast_scan_enabled v = true /\
  slider_pos_prev v = 9 /\
  reported_positions (emitted (cfg := example_build) (answers 0 ScanComplete 1 9 0) v)
    = [].
Proof. vm_compute. repeat split. Qed.
